(** * SCM migration report parser: a shallow embedding and its properties

    The program reads a JSON compatibility document (and, optionally, a
    Panorama XML configuration) and renders one HTML report.  This file
    embeds the functions of [scm-report-parser.py] and proves properties of
    the locator resolver, the path formatter, the record aggregator, the
    section renderers and the report assembler.

    Conventions of the embedding:
    - a Python [str] is a [string]; one [ascii] stands for one character;
    - a value loaded by [json.load] is a [json] (floating-point numbers are
      left out of the model);
    - a Python exception is the [Raise] outcome of a [result];
    - markup literals are written with a backquote where the source has a
      double quote, and [lit] puts the double quotes back;
    - the functions of [xml.etree.ElementTree] and [repr] on containers
      belong to the Python runtime, not to the program: they are the fields
      of the class [Runtime]. *)

From Stdlib Require Import Bool Ascii String List ZArith Lia.
From Stdlib Require Import Numbers.DecimalString.
Import ListNotations.

Set Warnings "-register-all".

Open Scope list_scope.
Open Scope string_scope.

(** ** Outcomes of Python code *)

Inductive exn : Type :=
| AttributeError
| TypeError
| ParseError.

Inductive result (A : Type) : Type :=
| Ok (a : A)
| Raise (e : exn).

Arguments Ok {A} a.
Arguments Raise {A} e.

Definition bind {A B : Type} (r : result A) (k : A -> result B) : result B :=
  match r with
  | Ok a => k a
  | Raise e => Raise e
  end.

Notation "x <- r ;; k" := (bind r (fun x => k))
  (at level 61, r at next level, right associativity).

(** [for x in xs: acc = body(acc, x)], where the body may raise. *)
Fixpoint for_each {A S : Type} (body : S -> A -> result S) (xs : list A) (acc : S)
  : result S :=
  match xs with
  | [] => Ok acc
  | x :: rest => acc' <- body acc x ;; for_each body rest acc'
  end.

(** ** Strings as Python uses them *)

Definition dquote : ascii := "034"%char.
Definition slash : ascii := "/"%char.

(** [lit] reads a markup literal: every backquote stands for a double quote. *)
Fixpoint lit (s : string) : string :=
  match s with
  | EmptyString => EmptyString
  | String c r => String (if Ascii.eqb c "`"%char then dquote else c) (lit r)
  end.

(** [sub in s] *)
Fixpoint contains (sub s : string) : bool :=
  if String.prefix sub s then true
  else match s with
       | EmptyString => false
       | String _ r => contains sub r
       end.

(** [s.lstrip('/')], [s.rstrip('/')] and [s.strip('/')] *)
Fixpoint lstrip (c : ascii) (s : string) : string :=
  match s with
  | EmptyString => EmptyString
  | String a r => if Ascii.eqb a c then lstrip c r else s
  end.

Fixpoint rstrip (c : ascii) (s : string) : string :=
  match s with
  | EmptyString => EmptyString
  | String a r =>
      match rstrip c r with
      | EmptyString => if Ascii.eqb a c then EmptyString else String a EmptyString
      | r' => String a r'
      end
  end.

Definition strip (c : ascii) (s : string) : string := rstrip c (lstrip c s).

(** [s.split(sep)] for a one-character separator: never the empty list. *)
Fixpoint split (sep : ascii) (s : string) : list string :=
  match s with
  | EmptyString => [EmptyString]
  | String a r =>
      if Ascii.eqb a sep then EmptyString :: split sep r
      else match split sep r with
           | [] => [String a EmptyString]
           | h :: t => String a h :: t
           end
  end.

(** [sep.join(parts)] *)
Fixpoint join (sep : string) (parts : list string) : string :=
  match parts with
  | [] => EmptyString
  | [p] => p
  | p :: rest => p ++ sep ++ join sep rest
  end.

Definition nonempty (s : string) : bool :=
  match s with
  | EmptyString => false
  | String _ _ => true
  end.

(** [s.replace(c, by)] for a one-character [c] *)
Fixpoint replace_char (c : ascii) (by_text : string) (s : string) : string :=
  match s with
  | EmptyString => EmptyString
  | String a r =>
      (if Ascii.eqb a c then by_text else String a EmptyString)
        ++ replace_char c by_text r
  end.

(** [html.escape(s)] with its default [quote=True]: five replacements, the
    ampersand first. *)
Definition escape_str (s : string) : string :=
  let s := replace_char "&"%char "&amp;" s in
  let s := replace_char "<"%char "&lt;" s in
  let s := replace_char ">"%char "&gt;" s in
  let s := replace_char dquote "&quot;" s in
  let s := replace_char "'"%char "&#x27;" s in
  s.

(** [str(n)] for an integer *)
Definition str_of_Z (z : Z) : string := NilZero.string_of_int (Z.to_int z).

(** ** The regular expression of the name predicate

    The pattern is the literal [entry[@name=], a double quote, a group of
    one or more characters other than the double quote, a double quote and
    a closing bracket.  [re.search] returns the leftmost match.  A match
    that starts at a given position is unique: the group is the longest run
    of characters other than the double quote, it is not empty, and the two
    characters after it are the double quote and the closing bracket. *)

Fixpoint strip_prefix (p s : string) : option string :=
  match p, s with
  | EmptyString, _ => Some s
  | String a p', String b s' => if Ascii.eqb a b then strip_prefix p' s' else None
  | String _ _, EmptyString => None
  end.

Fixpoint span_unquoted (s : string) : string * string :=
  match s with
  | EmptyString => (EmptyString, EmptyString)
  | String c r =>
      if Ascii.eqb c dquote then (EmptyString, s)
      else let (v, rest) := span_unquoted r in (String c v, rest)
  end.

Definition entry_marker : string := "entry[@name=".

Definition re_match_entry (s : string) : option string :=
  match strip_prefix (entry_marker ++ String dquote EmptyString) s with
  | Some after =>
      let (v, rest) := span_unquoted after in
      if nonempty v && String.prefix (String dquote "]") rest then Some v else None
  | None => None
  end.

Fixpoint re_search_entry (s : string) : option string :=
  match re_match_entry s with
  | Some v => Some v
  | None => match s with
            | EmptyString => None
            | String _ r => re_search_entry r
            end
  end.

(** ** JSON values and the dynamic operations of Python on them *)

Inductive json : Type :=
| JNull
| JBool (b : bool)
| JInt (z : Z)
| JStr (s : string)
| JList (items : list json)
| JDict (entries : list (string * json)).

(** A [dict] keeps its keys in insertion order; a key occurs once. *)
Fixpoint dict_lookup {V : Type} (k : string) (entries : list (string * V)) : option V :=
  match entries with
  | [] => None
  | (k', v) :: rest => if String.eqb k' k then Some v else dict_lookup k rest
  end.

(** [x.get(k, default)]: only a [dict] has the method. *)
Definition py_get (x : json) (k : string) (default : json) : result json :=
  match x with
  | JDict entries =>
      match dict_lookup k entries with
      | Some v => Ok v
      | None => Ok default
      end
  | _ => Raise AttributeError
  end.

(** [bool(x)], the test of [if x] and [not x] *)
Definition py_truthy (x : json) : bool :=
  match x with
  | JNull => false
  | JBool b => b
  | JInt z => negb (Z.eqb z 0)
  | JStr s => nonempty s
  | JList items => match items with [] => false | _ => true end
  | JDict entries => match entries with [] => false | _ => true end
  end.

Fixpoint chars (s : string) : list json :=
  match s with
  | EmptyString => []
  | String c r => JStr (String c EmptyString) :: chars r
  end.

(** [for v in x]: the items of a list, the keys of a dict, the characters
    of a string; nothing else can be iterated. *)
Definition py_iter (x : json) : result (list json) :=
  match x with
  | JList items => Ok items
  | JDict entries => Ok (map (fun kv => JStr (fst kv)) entries)
  | JStr s => Ok (chars s)
  | _ => Raise TypeError
  end.

(** [x.items()] *)
Definition py_items (x : json) : result (list (string * json)) :=
  match x with
  | JDict entries => Ok entries
  | _ => Raise AttributeError
  end.

(** [escape(x)]: [html.escape] calls [x.replace], which only a [str] has. *)
Definition escape (x : json) : result string :=
  match x with
  | JStr s => Ok (escape_str s)
  | _ => Raise AttributeError
  end.

(** [x == s] for a string literal [s] *)
Definition py_eq_str (x : json) (s : string) : bool :=
  match x with
  | JStr t => String.eqb t s
  | _ => false
  end.

(** [x in [s1, s2, ...]] for string literals *)
Definition py_in_strs (x : json) (l : list string) : bool :=
  existsb (py_eq_str x) l.

(** [x > 0] *)
Definition py_gt0 (x : json) : result bool :=
  match x with
  | JInt z => Ok (Z.ltb 0 z)
  | JBool b => Ok b
  | _ => Raise TypeError
  end.

(** ** The configuration tree of [xml.etree.ElementTree] *)

Inductive element : Type :=
| Element (tag : string) (attrib : list (string * string))
          (text tail : option string) (children : list element).

Definition elem_tag (e : element) : string :=
  match e with Element tag _ _ _ _ => tag end.

Definition elem_children (e : element) : list element :=
  match e with Element _ _ _ _ children => children end.

(** [e.get(k)] *)
Definition elem_get (e : element) (k : string) : option string :=
  match e with Element _ attrib _ _ _ => dict_lookup k attrib end.

(** [a == s] where [a] is an attribute value or [None] *)
Definition attr_eqb (a : option string) (s : string) : bool :=
  match a with
  | Some t => String.eqb t s
  | None => false
  end.

(** ** What the program takes from the Python runtime *)

Class Runtime : Type := {
  (** [ET.tostring(e, encoding='unicode', method='xml')] *)
  ET_tostring : element -> result string;
  (** [ET.fromstring(s)] *)
  ET_fromstring : string -> result element;
  (** [ET.indent(e, space='  ')], as the element it leaves behind *)
  ET_indent : element -> result element;
  (** [repr] of a list or of a dict *)
  py_repr : json -> string
}.

Section Program.

Context {RT : Runtime}.

(** [str(x)], also the conversion of [{x}] in an f-string *)
Definition py_str (x : json) : string :=
  match x with
  | JNull => "None"
  | JBool true => "True"
  | JBool false => "False"
  | JInt z => str_of_Z z
  | JStr s => s
  | JList _ | JDict _ => py_repr x
  end.

(** ** Locator resolver: [extract_xml_from_xpath] *)

(** [x.split('/')] *)
Definition py_split (x : json) (sep : ascii) : result (list string) :=
  match x with
  | JStr s => Ok (split sep s)
  | _ => Raise AttributeError
  end.

(** The inner loop
    [for child in current: if test(child): current = child; found = True; break].
    It gives the new [current] and [found]. *)
Fixpoint scan_children (test : element -> bool) (children : list element)
         (current : element) : element * bool :=
  match children with
  | [] => (current, false)
  | child :: rest =>
      if test child then (child, true) else scan_children test rest current
  end.

(** The loop over [parts]; [None] is the [return None] inside it. *)
Fixpoint walk_parts (parts : list string) (current : element) : option element :=
  match parts with
  | [] => Some current
  | part :: rest =>
      if contains entry_marker part then
        match re_search_entry part with
        | Some name_value =>
            let (current', found) :=
              scan_children
                (fun child => String.eqb (elem_tag child) "entry"
                              && attr_eqb (elem_get child "name") name_value)
                (elem_children current) current in
            if negb found then None else walk_parts rest current'
        | None => None
        end
      else
        let (current', found) :=
          scan_children (fun child => String.eqb (elem_tag child) part)
                        (elem_children current) current in
        if negb found then None else walk_parts rest current'
  end.

(** The body of the [try] block. *)
Definition extract_xml_try (root : element) (xpath : json) : result (option string) :=
  pieces <- py_split xpath slash ;;
  let parts := filter nonempty pieces in
  match walk_parts parts root with
  | None => Ok None
  | Some current => s <- ET_tostring current ;; Ok (Some s)
  end.

Definition extract_xml_from_xpath (root : option element) (xpath : json)
  : result (option string) :=
  match root with
  | None => Ok None
  | Some r =>
      match extract_xml_try r xpath with
      | Ok v => Ok v
      | Raise _ => Ok None
      end
  end.

(** ** [pretty_print_xml] *)

Definition pretty_print_xml (xml_string : option string) : option string :=
  match xml_string with
  | None => None
  | Some s =>
      if negb (nonempty s) then None
      else match (elem <- ET_fromstring s ;;
                  elem' <- ET_indent elem ;;
                  ET_tostring elem') with
           | Ok pretty => Some pretty
           | Raise _ => Some s
           end
  end.

(** ** Path formatter: [format_xpath] *)

Definition py_strip (x : json) (c : ascii) : result string :=
  match x with
  | JStr s => Ok (strip c s)
  | _ => Raise AttributeError
  end.

(** The body of the loop over [parts]: what is appended to
    [formatted_parts]. *)
Definition format_part (part : string) : string :=
  if contains entry_marker part then
    match re_search_entry part with
    | Some name_value => name_value
    | None => part
    end
  else part.

Definition format_xpath (xpath : json) : result string :=
  xpath' <- py_strip xpath slash ;;
  let parts := split slash xpath' in
  let formatted_parts := map format_part parts in
  Ok ("/" ++ join "/" formatted_parts).

End Program.

Section Renderers.

Context {RT : Runtime}.

(** ** Record aggregator and summary table: [generate_summary_table] *)

(** The dictionary [summary_item] has a fixed set of keys. *)
Record summary_item : Type := {
  si_category : json;
  si_rule_id : json;
  si_description : json;
  si_feature : json;
  si_tag : json;
  si_group : json;
  si_count : json;
  si_location : json
}.

Definition flat_categories : list string :=
  ["Unsupported Features"; "Unsupported Flags"; "Blocking Features"].

Definition make_summary_item (category item : json) : result summary_item :=
  rule_id <- py_get item "rule-id" (JStr "N/A") ;;
  description <- py_get item "description" (JStr "N/A") ;;
  feature <- py_get item "feature" (JStr "N/A") ;;
  tag <- py_get item "tag" (JStr "N/A") ;;
  group <- py_get item "group" (JStr "N/A") ;;
  count <- py_get item "count" (JInt 0) ;;
  location <- py_get item "location" (JStr "N/A") ;;
  Ok {| si_category := category;
        si_rule_id := rule_id;
        si_description := description;
        si_feature := feature;
        si_tag := tag;
        si_group := group;
        si_count := count;
        si_location := location |}.

(** The first loop of [generate_summary_table]: the list [all_items]. *)
Definition collect_all_items (data : json) : result (list summary_item) :=
  sections <- py_iter data ;;
  for_each
    (fun all_items section =>
       category <- py_get section "category" (JStr "") ;;
       if py_in_strs category flat_categories then
         details <- py_get section "details" (JList []) ;;
         items <- py_iter details ;;
         for_each
           (fun all_items item =>
              summary_item <- make_summary_item category item ;;
              Ok (all_items ++ [summary_item])%list)
           items all_items
       else Ok all_items)
    sections [].

Definition summary_row (item : summary_item) : result string :=
  let category_class :=
    if py_eq_str (si_category item) "Unsupported Features" then "category-unsupported"
    else if py_eq_str (si_category item) "Unsupported Flags" then "category-flags"
    else if py_eq_str (si_category item) "Blocking Features" then "category-blocking"
    else "" in
  category <- escape (si_category item) ;;
  rule_id <- escape (si_rule_id item) ;;
  description <- escape (si_description item) ;;
  feature <- escape (si_feature item) ;;
  tag <- escape (si_tag item) ;;
  group <- escape (si_group item) ;;
  location <- escape (si_location item) ;;
  Ok (lit "
                <tr class=`" ++ category_class ++ lit "`>
                    <td class=`category-cell`>" ++ category ++ lit "</td>
                    <td class=`rule-id-cell`>" ++ rule_id ++ lit "</td>
                    <td class=`description-cell`>" ++ description ++ "</td>
                    <td>" ++ feature ++ "</td>
                    <td>" ++ tag ++ "</td>
                    <td>" ++ group ++ lit "</td>
                    <td class=`count-cell`>" ++ py_str (si_count item) ++ "</td>
                    <td>" ++ location ++ "</td>
                </tr>
        ").

Definition generate_summary_table (data : json) : result string :=
  all_items <- collect_all_items data ;;
  match all_items with
  | [] => Ok (lit "<p class=`no-issues`>No issues found in configuration.</p>")
  | _ =>
      let html := lit "
    <div class=`table-container`>
        <table class=`summary-table`>
            <thead>
                <tr>
                    <th>Category</th>
                    <th>Rule ID</th>
                    <th>Description</th>
                    <th>Feature</th>
                    <th>Tag</th>
                    <th>Group</th>
                    <th>Count</th>
                    <th>Location</th>
                </tr>
            </thead>
            <tbody>
    " in
      html <- for_each (fun html item => row <- summary_row item ;; Ok (html ++ row))
                       all_items html ;;
      Ok (html ++ "
            </tbody>
        </table>
    </div>
    ")
  end.

(** ** Flat sections: [generate_unsupported_features_section] and its two
    wrappers *)

Definition opt_truthy (o : option string) : bool :=
  match o with
  | Some s => nonempty s
  | None => false
  end.

(** The body of [for xpath in xpaths]. *)
Definition xpath_item (xml_root : option element) (html : string) (xpath : json)
  : result string :=
  formatted_xpath <- format_xpath xpath ;;
  let html := html ++ lit "<li class=`xpath-item`>" ++ formatted_xpath in
  html <- match xml_root with
          | Some _ =>
              xml_content <- extract_xml_from_xpath xml_root xpath ;;
              if opt_truthy xml_content then
                let pretty_xml := pretty_print_xml xml_content in
                match pretty_xml with
                | Some pretty =>
                    if nonempty pretty then
                      Ok (html ++ lit "<div class=`xml-content`>"
                               ++ lit "<div class=`xml-content-header`>Configuration XML:</div>"
                               ++ lit "<pre class=`xml-code`>" ++ escape_str pretty ++ "</pre>"
                               ++ "</div>")
                    else Ok html
                | None => Ok html
                end
              else Ok html
          | None => Ok html
          end ;;
  Ok (html ++ "</li>").

(** The body of [for template, xpaths in ref_xpaths['templates'].items()]. *)
Definition xpath_template (xml_root : option element) (html : string)
           (entry : string * json) : result string :=
  let (template, xpaths) := entry in
  let html := html ++ lit "<div class=`xpath-template`><strong>" ++ escape_str template ++ ":</strong></div>" in
  let html := html ++ lit "<ul class=`xpath-list`>" in
  xpaths' <- py_iter xpaths ;;
  html <- for_each (xpath_item xml_root) xpaths' html ;;
  Ok (html ++ "</ul>").

(** The body of [for item in details]: one card. *)
Definition detail_card (xml_root : option element) (html : string) (item : json)
  : result string :=
  description <- (v <- py_get item "description" (JStr "N/A") ;; escape v) ;;
  rule_id <- (v <- py_get item "rule-id" (JStr "N/A") ;; escape v) ;;
  feature <- (v <- py_get item "feature" (JStr "N/A") ;; escape v) ;;
  tag <- (v <- py_get item "tag" (JStr "N/A") ;; escape v) ;;
  group <- (v <- py_get item "group" (JStr "N/A") ;; escape v) ;;
  count <- py_get item "count" (JInt 0) ;;
  location <- (v <- py_get item "location" (JStr "N/A") ;; escape v) ;;
  let html := html ++ lit "
        <div class=`detail-card unsupported`>
            <div class=`detail-header`>
                <h4>" ++ description ++ lit "</h4>
                <span class=`badge badge-error`>Unsupported</span>
            </div>
            <div class=`detail-content`>
                <div class=`info-row`>
                    <span class=`label`>Rule ID:</span>
                    <span class=`value`>" ++ rule_id ++ lit "</span>
                </div>
                <div class=`info-row`>
                    <span class=`label`>Feature:</span>
                    <span class=`value`>" ++ feature ++ lit "</span>
                </div>
                <div class=`info-row`>
                    <span class=`label`>Tag:</span>
                    <span class=`value`>" ++ tag ++ lit "</span>
                </div>
                <div class=`info-row`>
                    <span class=`label`>Group:</span>
                    <span class=`value`>" ++ group ++ lit "</span>
                </div>
                <div class=`info-row`>
                    <span class=`label`>Count:</span>
                    <span class=`value count`>" ++ py_str count ++ lit "</span>
                </div>
                <div class=`info-row`>
                    <span class=`label`>Location:</span>
                    <span class=`value`>" ++ location ++ "</span>
                </div>
        " in
  (* Referenced templates *)
  ref_in <- py_get item "referenced-in" (JDict []) ;;
  templates <- py_get ref_in "templates" JNull ;;
  html <- (if py_truthy templates then
             let html := html ++ lit "<div class=`referenced-section`>" in
             let html := html ++ "<h5>Referenced in Templates:</h5>" in
             let html := html ++ lit "<ul class=`template-list`>" in
             templates' <- py_iter templates ;;
             html <- for_each
                       (fun html template =>
                          t <- escape template ;;
                          Ok (html ++ "<li>" ++ t ++ "</li>"))
                       templates' html ;;
             Ok (html ++ "</ul></div>")
           else Ok html) ;;
  (* XPaths *)
  ref_xpaths <- py_get item "referenced-in-with-xpaths" (JDict []) ;;
  xtemplates <- py_get ref_xpaths "templates" JNull ;;
  html <- (if py_truthy xtemplates then
             let html := html ++ lit "<div class=`xpath-section`>" in
             let html := html ++ "<h5>Configuration Paths:</h5>" in
             entries <- py_items xtemplates ;;
             html <- for_each (xpath_template xml_root) entries html ;;
             Ok (html ++ "</div>")
           else Ok html) ;;
  Ok (html ++ "</div></div>").

Definition generate_unsupported_features_section (details : json)
           (xml_root : option element) : result string :=
  if negb (py_truthy details) then
    Ok (lit "<p class=`no-issues`>No unsupported features found.</p>")
  else
    let html := lit "<div class=`details-grid`>" in
    items <- py_iter details ;;
    html <- for_each (detail_card xml_root) items html ;;
    Ok (html ++ "</div>").

Definition generate_unsupported_flags_section (details : json)
           (xml_root : option element) : result string :=
  if negb (py_truthy details) then
    Ok (lit "<p class=`no-issues`>No unsupported flags found.</p>")
  else generate_unsupported_features_section details xml_root.

Definition generate_blocking_features_section (details : json)
           (xml_root : option element) : result string :=
  if negb (py_truthy details) then
    Ok (lit "<p class=`success`>No blocking features found.</p>")
  else generate_unsupported_features_section details xml_root.

End Renderers.

Section Assembler.

Context {RT : Runtime}.

(** ** [generate_config_summary_section] *)

Definition generate_config_summary_section (details : json) : result string :=
  if negb (py_truthy details) then
    Ok "<p>No configuration summary available.</p>"
  else
    let html := lit "<div class=`summary-grid`>" in
    items <- py_iter details ;;
    html <- for_each
              (fun html item =>
                 desc <- (v <- py_get item "description" (JStr "N/A") ;;
                          Ok (escape_str (py_str v))) ;;
                 count <- (v <- py_get item "count" (JStr "N/A") ;;
                           Ok (escape_str (py_str v))) ;;
                 Ok (html ++ lit "
        <div class=`summary-item`>
            <span class=`summary-label`>" ++ desc ++ lit ":</span>
            <span class=`summary-value`>" ++ count ++ "</span>
        </div>
        "))
              items html ;;
    Ok (html ++ "</div>").

(** ** [generate_templates_section] *)

(** One of the two labelled lists of a template card. *)
Definition feature_list (html : string) (features : json) (title items_open : string)
  : result string :=
  if py_truthy features then
    let html := html ++ lit "<div class=`template-section`>" in
    let html := html ++ title in
    let html := html ++ items_open in
    features' <- py_iter features ;;
    html <- for_each
              (fun html feature =>
                 f <- escape feature ;;
                 Ok (html ++ "<li>" ++ f ++ "</li>"))
              features' html ;;
    Ok (html ++ "</ul></div>")
  else Ok html.

Definition generate_templates_section (details : json) : result string :=
  if negb (py_truthy details) then
    Ok "<p>No template details available.</p>"
  else
    let html := lit "<div class=`templates-grid`>" in
    entries <- py_items details ;;
    html <- for_each
              (fun html (entry : string * json) =>
                 let (template_name, template_data) := entry in
                 let html := html ++ lit "
        <div class=`template-card`>
            <h4 class=`template-name`>" ++ escape_str template_name ++ "</h4>
        " in
                 (* Unsupported features *)
                 unsupported <- py_get template_data "unsupported-drop" (JList []) ;;
                 html <- feature_list html unsupported
                           (lit "<h5 class=`section-title unsupported-title`>Unsupported Features:</h5>")
                           (lit "<ul class=`feature-list unsupported-list`>") ;;
                 (* Supported but dropped features *)
                 supported <- py_get template_data "supported-drop" (JList []) ;;
                 html <- feature_list html supported
                           (lit "<h5 class=`section-title supported-title`>Supported but Dropped:</h5>")
                           (lit "<ul class=`feature-list supported-list`>") ;;
                 Ok (html ++ "</div>"))
              entries html ;;
    Ok (html ++ "</div>").

(** ** [generate_device_group_tree] and [generate_device_groups_section] *)

(** [', '.join(escape(d) for d in names)] *)
Definition join_escaped (names : json) : result string :=
  names' <- py_iter names ;;
  escaped <- for_each (fun acc d => e <- escape d ;; Ok (acc ++ [e])%list) names' [] ;;
  Ok (join ", " escaped).

(** One of the three optional lines of a group. *)
Definition group_info (html : string) (group : json) (key label : string)
  : result string :=
  names <- py_get group key JNull ;;
  if py_truthy names then
    let html := html ++ lit "<div class=`group-info`>" in
    joined <- join_escaped names ;;
    let html := html ++ (label ++ joined) in
    Ok (html ++ "</div>")
  else Ok html.

(** The part of [generate_device_group_tree] before the loop over the
    children: the markup of the group itself. *)
Definition device_group_block (group : json) (level : Z) : result string :=
  let indent := (level * 20)%Z in
  (* Determine status class *)
  total_unsupported <- py_get group "total-unsupported" (JInt 0) ;;
  total_partial <- py_get group "total-partially-supported" (JInt 0) ;;
  status <-
    (u <- py_gt0 total_unsupported ;;
     if u then
       Ok ("has-unsupported",
           lit "<span class=`badge badge-error`>" ++ py_str total_unsupported ++ " unsupported</span>")
     else
       p <- py_gt0 total_partial ;;
       if p then
         Ok ("has-partial",
             lit "<span class=`badge badge-warning`>" ++ py_str total_partial ++ " partial</span>")
       else
         Ok ("has-none", lit "<span class=`badge badge-success`>All supported</span>")) ;;
  let (status_class, status_badge) := (status : string * string) in
  let html := lit "<div class=`device-group " ++ status_class ++ lit "` style=`margin-left: " ++ str_of_Z indent ++ lit "px;`>" in
  let html := html ++ lit "<div class=`group-header`>" in
  name <- (v <- py_get group "name" (JStr "Unknown") ;; escape v) ;;
  let html := html ++ lit "<h4 class=`group-name`>" ++ name ++ "</h4>" in
  let html := html ++ status_badge in
  let html := html ++ "</div>" in
  (* Show devices, templates, template-stacks if present *)
  html <- group_info html group "devices" "<strong>Devices:</strong> " ;;
  html <- group_info html group "template-stacks" "<strong>Template Stacks:</strong> " ;;
  html <- group_info html group "templates" "<strong>Templates:</strong> " ;;
  Ok (html ++ "</div>").

(** The recursion follows the nesting of the document.  The value under
    the key [children] is found by a walk over the entries of the group so
    that every recursive call is on a part of [group].  When that value is
    not a list, its items are keys or characters, and the call on such an
    item stops in [device_group_block], where [group.get] raises. *)
Fixpoint generate_device_group_tree (group : json) (level : Z) {struct group}
  : result string :=
  html <- device_group_block group level ;;
  (* Process children recursively *)
  match group with
  | JDict entries =>
      (fix children_of (es : list (string * json)) : result string :=
         match es with
         | [] => Ok html
         | (k, children) :: rest =>
             if String.eqb k "children" then
               match children with
               | JList items =>
                   (fix each (cs : list json) (html : string) : result string :=
                      match cs with
                      | [] => Ok html
                      | child :: cs' =>
                          sub <- generate_device_group_tree child (level + 1) ;;
                          each cs' (html ++ sub)
                      end) items html
               | _ =>
                   if py_truthy children then
                     items <- py_iter children ;;
                     for_each
                       (fun html child =>
                          sub <- device_group_block child (level + 1) ;;
                          Ok (html ++ sub))
                       items html
                   else Ok html
               end
             else children_of rest
         end) entries
  | _ => Raise AttributeError
  end.

Definition generate_device_groups_section (details : json) : result string :=
  if negb (py_truthy details) then
    Ok "<p>No device group details available.</p>"
  else
    let html := lit "<div class=`device-groups-container`>" in
    groups <- py_iter details ;;
    html <- for_each
              (fun html group =>
                 tree <- generate_device_group_tree group 0 ;;
                 Ok (html ++ tree))
              groups html ;;
    Ok (html ++ "</div>").

(** ** Report assembler: [generate_html_report] *)

(** The dictionary [sections]: keys are category values, in insertion
    order.  Python compares keys with [==]: [True] and [1] are one key. *)
Definition py_hashable (k : json) : bool :=
  match k with
  | JList _ | JDict _ => false
  | _ => true
  end.

Definition key_number (k : json) : option Z :=
  match k with
  | JInt z => Some z
  | JBool b => Some (if b then 1 else 0)%Z
  | _ => None
  end.

Definition py_key_eqb (a b : json) : bool :=
  match a, b with
  | JNull, JNull => true
  | JStr s, JStr t => String.eqb s t
  | _, _ =>
      match key_number a, key_number b with
      | Some x, Some y => Z.eqb x y
      | _, _ => false
      end
  end.

(** [d[k] = v] *)
Fixpoint dict_set (d : list (json * json)) (k v : json) : list (json * json) :=
  match d with
  | [] => [(k, v)]
  | (k', v') :: rest =>
      if py_key_eqb k' k then (k', v) :: rest else (k', v') :: dict_set rest k v
  end.

(** [d.get(k)] as an option, for a string key *)
Fixpoint dict_find (d : list (json * json)) (k : string) : option json :=
  match d with
  | [] => None
  | (k', v) :: rest => if py_key_eqb k' (JStr k) then Some v else dict_find rest k
  end.

(** [sections.get(cat)] *)
Definition sections_get (sections : list (json * json)) (cat : string) : json :=
  match dict_find sections cat with
  | Some v => v
  | None => JNull
  end.

(** [cat in sections] *)
Definition sections_has (sections : list (json * json)) (cat : string) : bool :=
  match dict_find sections cat with
  | Some _ => true
  | None => false
  end.

(** The loop that fills [sections]. *)
Definition extract_sections (data : json) : result (list (json * json)) :=
  items <- py_iter data ;;
  for_each
    (fun sections section =>
       category <- py_get section "category" (JStr "Unknown") ;;
       details <- py_get section "details" (JList []) ;;
       if py_hashable category then Ok (dict_set sections category details)
       else Raise TypeError)
    items [].

(** [any(sections.get(cat) for cat in [...])] over the three flat
    categories *)
Definition any_flat (sections : list (json * json)) : bool :=
  existsb (fun cat => py_truthy (sections_get sections cat)) flat_categories.

(** The list [toc_entries]. *)
Definition toc_entries (sections : list (json * json)) : list (string * string) :=
  let toc_entries := [] in
  let toc_entries :=
    if any_flat sections
    then (toc_entries ++ [("summary", "Summary of Issues")])%list else toc_entries in
  let toc_entries :=
    if py_truthy (sections_get sections "Unsupported Features")
    then (toc_entries ++ [("unsupported-features", "Unsupported Features")])%list
    else toc_entries in
  let toc_entries :=
    if py_truthy (sections_get sections "Unsupported Flags")
    then (toc_entries ++ [("unsupported-flags", "Unsupported Flags")])%list
    else toc_entries in
  let toc_entries :=
    if py_truthy (sections_get sections "Blocking Features")
    then (toc_entries ++ [("blocking-features", "Blocking Features")])%list
    else toc_entries in
  let toc_entries :=
    if py_truthy (sections_get sections "Configuration Summary")
    then (toc_entries ++ [("config-summary", "Configuration Summary")])%list
    else toc_entries in
  let toc_entries :=
    if py_truthy (sections_get sections "Templates")
    then (toc_entries ++ [("templates", "Templates")])%list else toc_entries in
  let toc_entries :=
    if sections_has sections "Template-stacks"
    then (toc_entries ++ [("template-stacks", "Template Stacks")])%list
    else toc_entries in
  let toc_entries :=
    if py_truthy (sections_get sections "Device Groups")
    then (toc_entries ++ [("device-groups", "Device Groups")])%list else toc_entries in
  toc_entries.

(** The head of the page up to the generation time, which the source reads
    from the clock in the middle of the literal. *)
Definition page_head : string :=
  lit "<!DOCTYPE html>
<html lang=`en`>
<head>
    <meta charset=`UTF-8`>
    <meta name=`viewport` content=`width=device-width, initial-scale=1.0`>
    <title>SCM Migration Compatibility Report</title>
    <style>
        * {
            margin: 0;
            padding: 0;
            box-sizing: border-box;
        }
        
        body {
            font-family: -apple-system, BlinkMacSystemFont, 'Segoe UI', Roboto, 'Helvetica Neue', Arial, sans-serif;
            line-height: 1.6;
            color: #333;
            background: #f5f5f5;
            padding: 20px;
        }
        
        .container {
            max-width: 1400px;
            margin: 0 auto;
            background: white;
            padding: 40px;
            border-radius: 8px;
            box-shadow: 0 2px 10px rgba(0,0,0,0.1);
        }
        
        h1 {
            color: #2c3e50;
            margin-bottom: 10px;
            font-size: 2.5em;
            border-bottom: 4px solid #3498db;
            padding-bottom: 10px;
        }
        
        .report-meta {
            color: #7f8c8d;
            margin-bottom: 30px;
            font-size: 0.9em;
        }
        
        h2 {
            color: #34495e;
            margin-top: 40px;
            margin-bottom: 20px;
            font-size: 1.8em;
            padding: 10px;
            background: #ecf0f1;
            border-left: 5px solid #3498db;
        }
        
        h3 {
            color: #2c3e50;
            margin-top: 30px;
            margin-bottom: 15px;
            font-size: 1.4em;
        }
        
        h4 {
            color: #34495e;
            margin-bottom: 10px;
            font-size: 1.2em;
        }
        
        h5 {
            color: #555;
            margin-top: 15px;
            margin-bottom: 8px;
            font-size: 1em;
            font-weight: 600;
        }
        
        .details-grid {
            display: grid;
            gap: 20px;
            margin-bottom: 20px;
        }
        
        .detail-card {
            border: 1px solid #ddd;
            border-radius: 6px;
            padding: 20px;
            background: #fafafa;
        }
        
        .detail-card.unsupported {
            border-left: 4px solid #e74c3c;
        }
        
        .detail-header {
            display: flex;
            justify-content: space-between;
            align-items: center;
            margin-bottom: 15px;
            padding-bottom: 10px;
            border-bottom: 2px solid #eee;
        }
        
        .detail-content {
            display: flex;
            flex-direction: column;
            gap: 10px;
        }
        
        .info-row {
            display: flex;
            padding: 8px;
            background: white;
            border-radius: 4px;
        }
        
        .label {
            font-weight: 600;
            color: #555;
            min-width: 120px;
        }
        
        .value {
            color: #333;
        }
        
        .value.count {
            font-weight: bold;
            color: #e74c3c;
        }
        
        .badge {
            padding: 4px 12px;
            border-radius: 12px;
            font-size: 0.85em;
            font-weight: 600;
            white-space: nowrap;
        }
        
        .badge-error {
            background: #e74c3c;
            color: white;
        }
        
        .badge-warning {
            background: #f39c12;
            color: white;
        }
        
        .badge-success {
            background: #27ae60;
            color: white;
        }
        
        .referenced-section {
            margin-top: 15px;
            padding: 15px;
            background: white;
            border-radius: 4px;
        }
        
        .template-list {
            list-style: none;
            margin-top: 8px;
        }
        
        .template-list li {
            padding: 6px 12px;
            margin: 4px 0;
            background: #3498db;
            color: white;
            border-radius: 4px;
            display: inline-block;
            margin-right: 8px;
        }
        
        .xpath-section {
            margin-top: 15px;
            padding: 15px;
            background: #f8f9fa;
            border: 1px solid #dee2e6;
            border-radius: 4px;
            font-family: 'Courier New', monospace;
            font-size: 0.9em;
        }
        
        .xpath-section h5 {
            color: #495057;
            margin-bottom: 10px;
        }
        
        .xpath-template {
            margin-top: 12px;
            padding: 8px;
            background: #e9ecef;
            border-radius: 4px;
            color: #0056b3;
            font-weight: 600;
        }
        
        .xpath-list {
            list-style: none;
            margin-top: 8px;
        }
        
        .xpath-item {
            padding: 8px 12px;
            margin: 6px 0;
            background: white;
            border-left: 3px solid #0056b3;
            border-radius: 4px;
            overflow-x: auto;
            line-height: 1.6;
            color: #212529;
            word-break: break-all;
        }
        
        .no-issues {
            padding: 15px;
            background: #d4edda;
            color: #155724;
            border: 1px solid #c3e6cb;
            border-radius: 4px;
        }
        
        .success {
            padding: 15px;
            background: #d4edda;
            color: #155724;
            border: 1px solid #c3e6cb;
            border-radius: 4px;
            font-weight: 600;
        }
        
        .summary-grid {
            display: grid;
            grid-template-columns: repeat(auto-fill, minmax(280px, 1fr));
            gap: 15px;
            margin-bottom: 20px;
        }
        
        .summary-item {
            padding: 15px;
            background: #ecf0f1;
            border-radius: 6px;
            display: flex;
            justify-content: space-between;
            align-items: center;
            border-left: 4px solid #3498db;
        }
        
        .summary-label {
            font-weight: 600;
            color: #555;
        }
        
        .summary-value {
            font-size: 1.2em;
            font-weight: bold;
            color: #2c3e50;
        }
        
        .templates-grid {
            display: grid;
            gap: 20px;
            margin-bottom: 20px;
        }
        
        .template-card {
            border: 2px solid #3498db;
            border-radius: 8px;
            padding: 20px;
            background: #fafafa;
        }
        
        .template-name {
            color: #2c3e50;
            margin-bottom: 15px;
            padding-bottom: 10px;
            border-bottom: 2px solid #3498db;
        }
        
        .template-section {
            margin-top: 15px;
        }
        
        .section-title {
            margin-bottom: 10px;
        }
        
        .unsupported-title {
            color: #e74c3c;
        }
        
        .supported-title {
            color: #f39c12;
        }
        
        .feature-list {
            list-style: none;
        }
        
        .feature-list li {
            padding: 8px 12px;
            margin: 4px 0;
            border-radius: 4px;
        }
        
        .unsupported-list li {
            background: #fadbd8;
            border-left: 4px solid #e74c3c;
        }
        
        .supported-list li {
            background: #fdeaa3;
            border-left: 4px solid #f39c12;
        }
        
        .device-groups-container {
            margin-bottom: 20px;
        }
        
        .device-group {
            margin: 10px 0;
            padding: 15px;
            border-radius: 6px;
            border: 1px solid #ddd;
        }
        
        .device-group.has-unsupported {
            background: #fadbd8;
            border-left: 4px solid #e74c3c;
        }
        
        .device-group.has-partial {
            background: #fdeaa3;
            border-left: 4px solid #f39c12;
        }
        
        .device-group.has-none {
            background: #d4edda;
            border-left: 4px solid #27ae60;
        }
        
        .group-header {
            display: flex;
            justify-content: space-between;
            align-items: center;
            margin-bottom: 10px;
        }
        
        .group-name {
            color: #2c3e50;
            font-size: 1.1em;
        }
        
        .group-info {
            margin: 8px 0;
            padding: 8px;
            background: white;
            border-radius: 4px;
            font-size: 0.9em;
        }
        
        .group-info strong {
            color: #555;
        }
        
        .table-container {
            margin: 20px 0;
            overflow-x: auto;
        }
        
        .summary-table {
            width: 100%;
            border-collapse: collapse;
            background: white;
            box-shadow: 0 1px 3px rgba(0,0,0,0.1);
        }
        
        .summary-table thead {
            background: #34495e;
            color: white;
        }
        
        .summary-table th {
            padding: 12px 10px;
            text-align: left;
            font-weight: 600;
            font-size: 0.9em;
            border-bottom: 2px solid #2c3e50;
        }
        
        .summary-table td {
            padding: 10px;
            border-bottom: 1px solid #ecf0f1;
            font-size: 0.9em;
        }
        
        .summary-table tbody tr:hover {
            background: #f8f9fa;
        }
        
        .category-unsupported {
            border-left: 4px solid #e74c3c;
        }
        
        .category-flags {
            border-left: 4px solid #f39c12;
        }
        
        .category-blocking {
            border-left: 4px solid #c0392b;
        }
        
        .category-cell {
            font-weight: 600;
        }
        
        .rule-id-cell {
            font-family: 'Courier New', monospace;
            color: #0056b3;
        }
        
        .description-cell {
            font-weight: 500;
        }
        
        .count-cell {
            font-weight: bold;
            text-align: center;
            color: #e74c3c;
        }
        
        .toc {
            background: #f8f9fa;
            border: 2px solid #3498db;
            border-radius: 8px;
            padding: 20px 30px;
            margin: 30px 0;
        }
        
        .toc h2 {
            margin-top: 0;
            margin-bottom: 15px;
            background: none;
            border: none;
            padding: 0;
            font-size: 1.5em;
            color: #2c3e50;
        }
        
        .toc ul {
            list-style: none;
            margin: 0;
            padding: 0;
        }
        
        .toc ul li {
            margin: 8px 0;
        }
        
        .toc a {
            color: #0056b3;
            text-decoration: none;
            padding: 6px 10px;
            display: block;
            border-radius: 4px;
            transition: background-color 0.2s;
        }
        
        .toc a:hover {
            background: #e9ecef;
            color: #004085;
        }
        
        .toc a::before {
            content: `→ `;
            margin-right: 8px;
            color: #3498db;
        }
        
        .xml-content {
            margin-top: 10px;
            padding: 12px;
            background: #1e1e1e;
            border-radius: 4px;
            border: 1px solid #0056b3;
        }
        
        .xml-content-header {
            color: #61dafb;
            font-weight: 600;
            margin-bottom: 8px;
            font-size: 0.85em;
        }
        
        .xml-code {
            margin: 0;
            padding: 12px;
            background: #2d2d2d;
            border-radius: 4px;
            color: #d4d4d4;
            font-family: 'Courier New', Consolas, monospace;
            font-size: 0.85em;
            overflow-x: auto;
            line-height: 1.5;
            white-space: pre;
        }
        
        @media print {
            body {
                background: white;
                padding: 0;
            }
            
            .container {
                box-shadow: none;
                padding: 20px;
            }
        }
    </style>
</head>
<body>
    <div class=`container`>
        <h1>SCM Migration Compatibility Report</h1>
        <div class=`report-meta`>
            Generated on: ".

Definition page_head_end : string :=
  lit "
        </div>
        
        <div class=`toc`>
            <h2>Table of Contents</h2>
            <ul>
".

(** [now] is the text that [datetime.now().strftime(...)] gives. *)
Definition generate_html_report (now : string) (data : json)
           (xml_root : option element) : result string :=
  (* Extract sections *)
  sections <- extract_sections data ;;
  (* Build table of contents entries *)
  let toc_entries := toc_entries sections in
  let html := page_head ++ escape_str now ++ page_head_end in
  (* Add TOC links *)
  let html :=
    fold_left
      (fun html (entry : string * string) =>
         let (anchor, title) := entry in
         html ++ lit "                <li><a href=`#" ++ anchor ++ lit "`>" ++ escape_str title ++ "</a></li>
")
      toc_entries html in
  let html := html ++ "            </ul>
        </div>
" in
  (* Generate sections with anchors *)
  html <- (if any_flat sections then
             let html := html ++ lit "        <h2 id=`summary`>Summary of Issues</h2>
" in
             table <- generate_summary_table data ;;
             Ok (html ++ table)
           else Ok html) ;;
  (* Generate sections *)
  html <- (if sections_has sections "Unsupported Features" then
             let html := html ++ lit "<h2 id=`unsupported-features`>Unsupported Features</h2>" in
             body <- generate_unsupported_features_section
                       (sections_get sections "Unsupported Features") xml_root ;;
             Ok (html ++ body)
           else Ok html) ;;
  html <- (if sections_has sections "Unsupported Flags" then
             let html := html ++ lit "<h2 id=`unsupported-flags`>Unsupported Flags</h2>" in
             body <- generate_unsupported_flags_section
                       (sections_get sections "Unsupported Flags") xml_root ;;
             Ok (html ++ body)
           else Ok html) ;;
  html <- (if sections_has sections "Blocking Features" then
             let html := html ++ lit "<h2 id=`blocking-features`>Blocking Features</h2>" in
             body <- generate_blocking_features_section
                       (sections_get sections "Blocking Features") xml_root ;;
             Ok (html ++ body)
           else Ok html) ;;
  html <- (if sections_has sections "Configuration Summary" then
             let html := html ++ lit "<h2 id=`config-summary`>Configuration Summary</h2>" in
             body <- generate_config_summary_section
                       (sections_get sections "Configuration Summary") ;;
             Ok (html ++ body)
           else Ok html) ;;
  html <- (if sections_has sections "Templates" then
             let html := html ++ lit "<h2 id=`templates`>Templates</h2>" in
             body <- generate_templates_section (sections_get sections "Templates") ;;
             Ok (html ++ body)
           else Ok html) ;;
  html <- (if sections_has sections "Template-stacks" then
             let html := html ++ lit "<h2 id=`template-stacks`>Template Stacks</h2>" in
             if py_truthy (sections_get sections "Template-stacks") then
               body <- generate_templates_section
                         (sections_get sections "Template-stacks") ;;
               Ok (html ++ body)
             else Ok (html ++ "<p>No template stack details available.</p>")
           else Ok html) ;;
  html <- (if sections_has sections "Device Groups" then
             let html := html ++ lit "<h2 id=`device-groups`>Device Groups</h2>" in
             body <- generate_device_groups_section
                       (sections_get sections "Device Groups") ;;
             Ok (html ++ body)
           else Ok html) ;;
  Ok (html ++ "
    </div>
</body>
</html>
").

End Assembler.

(** * The command line: the arguments of [main]

    [main] reads the arguments, loads the two files, calls
    [generate_html_report] and writes the report.  The reading of the
    arguments is the part that is a function of [sys.argv]. *)

(** The text before the last [c] of [s], if [c] occurs in [s]. *)
Fixpoint before_last (c : ascii) (s : string) : option string :=
  match s with
  | EmptyString => None
  | String a r =>
      match before_last c r with
      | Some h => Some (String a h)
      | None => if Ascii.eqb a c then Some EmptyString else None
      end
  end.

(** [s.rsplit(c, 1)[0]] *)
Definition rsplit_first (c : ascii) (s : string) : string :=
  match before_last c s with
  | Some h => h
  | None => s
  end.

(** The loop [while i < len(sys.argv)] from [i = 2], on the arguments
    that are left; it gives [output_file] and [xml_file]. *)
Fixpoint parse_arguments (args : list string) (output_file xml_file : option string)
  : option string * option string :=
  match args with
  | [] => (output_file, xml_file)
  | arg :: rest =>
      match String.eqb arg "--xml", rest with
      | true, value :: rest' => parse_arguments rest' output_file (Some value)
      | _, _ =>
          match output_file with
          | None =>
              if negb (String.prefix "--" arg)
              then parse_arguments rest (Some arg) xml_file
              else parse_arguments rest output_file xml_file
          | Some _ => parse_arguments rest output_file xml_file
          end
      end
  end.

(** The input file, the output file and the configuration file that
    [main] works with; [None] when it prints the usage and exits. *)
Definition main_arguments (argv : list string)
  : option (string * string * option string) :=
  match argv with
  | _ :: input_file :: rest =>
      let (output_file, xml_file) := parse_arguments rest None None in
      let output_file :=
        match output_file with
        | Some f => f
        | None => rsplit_first "."%char input_file ++ "-report.html"
        end in
      Some (input_file, output_file, xml_file)
  | _ => None
  end.

(** * Definitions used to state the properties *)

(** ** A runtime for the examples

    The theorems hold for every [Runtime]; the examples need one.  This one
    writes an element without escaping, has no parser (so that
    [pretty_print_xml] falls back on its argument) and prints every
    container as three dots. *)

Fixpoint plain_attributes (attrib : list (string * string)) : string :=
  match attrib with
  | [] => ""
  | (k, v) :: rest => " " ++ k ++ lit "=`" ++ v ++ lit "`" ++ plain_attributes rest
  end.

Definition text_or_empty (o : option string) : string :=
  match o with
  | Some s => s
  | None => ""
  end.

Fixpoint plain_tostring (e : element) : string :=
  match e with
  | Element tag attrib text tail children =>
      "<" ++ tag ++ plain_attributes attrib ++ ">" ++ text_or_empty text
          ++ String.concat "" (map plain_tostring children)
          ++ "</" ++ tag ++ ">" ++ text_or_empty tail
  end.

Definition sample_runtime : Runtime := {|
  ET_tostring := fun e => Ok (plain_tostring e);
  ET_fromstring := fun _ => Raise ParseError;
  ET_indent := fun e => Ok e;
  py_repr := fun _ => "..."
|}.

(** ** The resolver in the words of the specification *)

(** [child] is the first of [children], in document order, that passes
    [test]. *)
Definition first_match (test : element -> bool) (children : list element)
           (child : element) : Prop :=
  exists before after,
    children = (before ++ child :: after)%list
    /\ test child = true
    /\ Forall (fun c => test c = false) before.

(** One segment of the path.  A segment carries a name predicate when the
    marker occurs in it; the token before the predicate is the literal
    [entry] of the pattern, and the value is the group of the pattern. *)
Inductive step_to (current : element) : string -> element -> Prop :=
| step_predicate (part value : string) (child : element) :
    contains entry_marker part = true ->
    re_search_entry part = Some value ->
    first_match (fun c => String.eqb (elem_tag c) "entry"
                          && attr_eqb (elem_get c "name") value)
                (elem_children current) child ->
    step_to current part child
| step_bare (part : string) (child : element) :
    contains entry_marker part = false ->
    first_match (fun c => String.eqb (elem_tag c) part)
                (elem_children current) child ->
    step_to current part child.

(** The whole walk: every segment takes one step, none is skipped. *)
Inductive resolves : element -> list string -> element -> Prop :=
| resolves_done (node : element) : resolves node [] node
| resolves_step (node : element) (part : string) (child : element)
                (rest : list string) (target : element) :
    step_to node part child ->
    resolves child rest target ->
    resolves node (part :: rest) target.

(** The segments of a path expression: the pieces between slashes that
    are not empty. *)
Definition segments (path : string) : list string :=
  filter nonempty (split slash path).

(** ** Bare paths *)

(** A segment that the formatter leaves as it is: it carries no name
    predicate, or the pattern does not match it. *)
Definition kept_segment (part : string) : bool :=
  negb (contains entry_marker part)
  || match re_search_entry part with
     | Some _ => false
     | None => true
     end.

Definition bare_path (path : string) : bool :=
  forallb kept_segment (split slash (strip slash path)).

(** ** The rows of the summary in the words of the specification *)

(** The value of a field of a record, or the placeholder when the record
    has no such field. *)
Definition field (entries : list (string * json)) (k : string) (placeholder : json)
  : json :=
  match dict_lookup k entries with
  | Some v => v
  | None => placeholder
  end.

Definition row_of (category : json) (item : list (string * json)) : summary_item :=
  {| si_category := category;
     si_rule_id := field item "rule-id" (JStr "N/A");
     si_description := field item "description" (JStr "N/A");
     si_feature := field item "feature" (JStr "N/A");
     si_tag := field item "tag" (JStr "N/A");
     si_group := field item "group" (JStr "N/A");
     si_count := field item "count" (JInt 0);
     si_location := field item "location" (JStr "N/A") |}.

(** The rows that one section gives: one row per record, in the order of
    the records, when the category is flat; none otherwise.  The records
    are what iterating over the details gives, so that details with
    nothing to iterate over (an empty list, dictionary or string) give no
    row. *)
Inductive section_rows : json -> list summary_item -> Prop :=
| rows_flat (section : list (string * json)) (records : list (list (string * json))) :
    py_in_strs (field section "category" (JStr "")) flat_categories = true ->
    py_iter (field section "details" (JList [])) = Ok (map JDict records) ->
    section_rows (JDict section)
                 (map (row_of (field section "category" (JStr ""))) records)
| rows_other (section : list (string * json)) :
    py_in_strs (field section "category" (JStr "")) flat_categories = false ->
    section_rows (JDict section) [].

(** ** The shape of the report *)

(** The sections of a document.  A document that is not a list either
    makes the assembler raise or has nothing to iterate over. *)
Definition document_sections (data : json) : list json :=
  match data with
  | JList items => items
  | _ => []
  end.

(** The categories that the assembler looks up. *)
Definition known_categories : list string :=
  ["Unsupported Features"; "Unsupported Flags"; "Blocking Features";
   "Configuration Summary"; "Templates"; "Template-stacks"; "Device Groups"].

(** A section whose category is none of the known ones: a dictionary with
    no category, or with one that can be a key and is not a known name. *)
Definition unknown_section (section : json) : bool :=
  match section with
  | JDict entries =>
      match dict_lookup "category" entries with
      | Some category =>
          py_hashable category && negb (py_in_strs category known_categories)
      | None => true
      end
  | _ => false
  end.

(** The category under which the assembler files a section, and the
    details it files. *)
Definition filed_under (cat : string) (section : json) : bool :=
  match section with
  | JDict entries => py_eq_str (field entries "category" (JStr "Unknown")) cat
  | _ => false
  end.

Definition details_of (section : json) : json :=
  match section with
  | JDict entries => field entries "details" (JList [])
  | _ => JNull
  end.

(** The details of the last section filed under [cat], if there is one. *)
Fixpoint last_details (cat : string) (sections : list json) : option json :=
  match sections with
  | [] => None
  | section :: rest =>
      match last_details cat rest with
      | Some details => Some details
      | None => if filed_under cat section then Some (details_of section) else None
      end
  end.

(** [cat] is present in the input. *)
Definition category_present (cat : string) (sections : list json) : bool :=
  existsb (filed_under cat) sections.

(** One line of the table of contents, and the page down to the end of
    the table. *)
Definition toc_line (entry : string * string) : string :=
  let (anchor, title) := entry in
  lit "                <li><a href=`#" ++ anchor ++ lit "`>" ++ escape_str title ++ "</a></li>
".

Definition toc_end : string :=
  "            </ul>
        </div>
".

Definition page_top (now : string) (entries : list (string * string)) : string :=
  page_head ++ escape_str now ++ page_head_end
    ++ String.concat "" (map toc_line entries)
    ++ toc_end.

Definition page_end : string :=
  "
    </div>
</body>
</html>
".

Definition summary_entry : string * string := ("summary", "Summary of Issues").

Definition summary_heading : string :=
  lit "        <h2 id=`summary`>Summary of Issues</h2>
".

(** A section of the report: a heading and then the body, or nothing. *)
Definition block (present : bool) (heading : string) (body : result string)
  : result string :=
  if present then b <- body ;; Ok (heading ++ b) else Ok "".

Section Canonical.

Context {RT : Runtime}.

(** The sections after the summary: category, heading and renderer. *)
Record section_kind : Type := {
  sk_category : string;
  sk_heading : string;
  sk_render : json -> option element -> result string
}.

Definition kind_features : section_kind :=
  {| sk_category := "Unsupported Features";
     sk_heading := lit "<h2 id=`unsupported-features`>Unsupported Features</h2>";
     sk_render := generate_unsupported_features_section |}.

Definition kind_flags : section_kind :=
  {| sk_category := "Unsupported Flags";
     sk_heading := lit "<h2 id=`unsupported-flags`>Unsupported Flags</h2>";
     sk_render := generate_unsupported_flags_section |}.

Definition kind_blocking : section_kind :=
  {| sk_category := "Blocking Features";
     sk_heading := lit "<h2 id=`blocking-features`>Blocking Features</h2>";
     sk_render := generate_blocking_features_section |}.

Definition kind_config : section_kind :=
  {| sk_category := "Configuration Summary";
     sk_heading := lit "<h2 id=`config-summary`>Configuration Summary</h2>";
     sk_render := fun details _ => generate_config_summary_section details |}.

Definition kind_templates : section_kind :=
  {| sk_category := "Templates";
     sk_heading := lit "<h2 id=`templates`>Templates</h2>";
     sk_render := fun details _ => generate_templates_section details |}.

Definition kind_stacks : section_kind :=
  {| sk_category := "Template-stacks";
     sk_heading := lit "<h2 id=`template-stacks`>Template Stacks</h2>";
     sk_render := fun details _ =>
                    if py_truthy details then generate_templates_section details
                    else Ok "<p>No template stack details available.</p>" |}.

Definition kind_groups : section_kind :=
  {| sk_category := "Device Groups";
     sk_heading := lit "<h2 id=`device-groups`>Device Groups</h2>";
     sk_render := fun details _ => generate_device_groups_section details |}.

(** The canonical order. *)
Definition canonical_sections : list section_kind :=
  [kind_features; kind_flags; kind_blocking; kind_config; kind_templates;
   kind_stacks; kind_groups].

(** The text that the assembler adds for one kind, from its dictionary. *)
Definition kind_block (sections : list (json * json)) (xml_root : option element)
           (kind : section_kind) : result string :=
  block (sections_has sections (sk_category kind)) (sk_heading kind)
        (sk_render kind (sections_get sections (sk_category kind)) xml_root).

(** What the report is made of, the generation time apart: the entries of
    the table of contents and the text after the table. *)
Definition report_parts (data : json) (xml_root : option element)
  : result (list (string * string) * string) :=
  sections <- extract_sections data ;;
  summary <- block (any_flat sections) summary_heading
                   (generate_summary_table data) ;;
  b1 <- kind_block sections xml_root kind_features ;;
  b2 <- kind_block sections xml_root kind_flags ;;
  b3 <- kind_block sections xml_root kind_blocking ;;
  b4 <- kind_block sections xml_root kind_config ;;
  b5 <- kind_block sections xml_root kind_templates ;;
  b6 <- kind_block sections xml_root kind_stacks ;;
  b7 <- kind_block sections xml_root kind_groups ;;
  Ok (toc_entries sections,
      summary ++ String.concat "" [b1; b2; b3; b4; b5; b6; b7] ++ page_end).

(** What the report holds for one kind of section, given the sections of
    the input: when the category is present, the heading and the body
    rendered from the last details filed under it, whatever they are;
    when it is absent, nothing. *)
Definition emitted (sections : list json) (xml_root : option element)
           (kind : section_kind) (text : string) : Prop :=
  if category_present (sk_category kind) sections then
    exists details body,
      last_details (sk_category kind) sections = Some details
      /\ sk_render kind details xml_root = Ok body
      /\ text = sk_heading kind ++ body
  else text = "".

(** The three flat categories, looked up as the assembler does: whether
    the last section filed under one of them has details that are not
    empty. *)
Definition flat_records (sections : list json) : bool :=
  existsb (fun cat => match last_details cat sections with
                      | Some details => py_truthy details
                      | None => false
                      end)
          flat_categories.

End Canonical.

(** Two dictionaries that hold the same under every name but [k]. *)
Definition agree_but (k : json) (d1 d2 : list (json * json)) : Prop :=
  forall cat, py_eq_str k cat = false -> dict_find d1 cat = dict_find d2 cat.

(** ** Escaping in one pass *)

(** What the five replacements make of one character. *)
Definition escape_char (c : ascii) : string :=
  if Ascii.eqb c "&"%char then "&amp;"
  else if Ascii.eqb c "<"%char then "&lt;"
  else if Ascii.eqb c ">"%char then "&gt;"
  else if Ascii.eqb c dquote then "&quot;"
  else if Ascii.eqb c "'"%char then "&#x27;"
  else String c EmptyString.

Fixpoint escape_chars (s : string) : string :=
  match s with
  | EmptyString => EmptyString
  | String c r => escape_char c ++ escape_chars r
  end.

(** ** Markup characters in a card *)

Fixpoint count_char (c : ascii) (s : string) : nat :=
  match s with
  | EmptyString => 0
  | String a r => (if Ascii.eqb a c then 1 else 0) + count_char c r
  end.

(** The characters that [html.escape] takes out of a text, the ampersand
    apart. *)
Definition markup_chars : list ascii := ["<"%char; ">"%char; dquote; "'"%char].

(** A finding record with its seven fields and the names of the templates
    that refer to it, and no locator paths. *)
Definition record_of (description rule_id feature tag group location : string)
           (count : Z) (templates : list string) : json :=
  JDict [("description", JStr description);
         ("rule-id", JStr rule_id);
         ("feature", JStr feature);
         ("tag", JStr tag);
         ("group", JStr group);
         ("count", JInt count);
         ("location", JStr location);
         ("referenced-in", JDict [("templates", JList (map JStr templates))])].

(** A finding record with nothing but one locator path, filed under the
    template [t]. *)
Definition record_with_path (path : string) : json :=
  JDict [("referenced-in-with-xpaths",
          JDict [("templates", JDict [("t", JList [JStr path])])])].

(** The names of the templates, as list items. *)
Definition template_items (templates : list string) : string :=
  String.concat "" (map (fun t => "<li>" ++ escape_str t ++ "</li>") templates).

(** The block of the template names, absent when there is no name. *)
Definition template_block (templates : list string) : string :=
  match templates with
  | [] => ""
  | _ => lit "<div class=`referenced-section`>" ++ "<h5>Referenced in Templates:</h5>" ++ lit "<ul class=`template-list`>" ++ template_items templates ++ "</ul></div>"
  end.

(** ** Records in the flat categories, as the specification words it *)

(** Some section filed under [cat] has at least one record. *)
Definition has_record (cat : string) (sections : list json) : bool :=
  existsb (fun section => filed_under cat section && py_truthy (details_of section))
          sections.

(** At least one of the three flat categories has at least one record. *)
Definition some_flat_record (sections : list json) : bool :=
  existsb (fun cat => has_record cat sections) flat_categories.

(** ** Sample inputs *)

Definition sample_now : string := "2026-01-01 00:00:00".

Definition record_r1 : list (string * json) :=
  [("rule-id", JStr "R1"); ("description", JStr "QoS profile"); ("count", JInt 3)].

Definition record_r2 : list (string * json) :=
  [("rule-id", JStr "R2"); ("feature", JStr "ipsec"); ("location", JStr "vsys1")].

Definition features_section (records : list (list (string * json)))
  : list (string * json) :=
  [("category", JStr "Unsupported Features"); ("details", JList (map JDict records))].

Definition templates_section : list (string * json) :=
  [("category", JStr "Templates");
   ("details", JDict [("branch", JDict [("unsupported-drop", JList [JStr "qos"])])])].

Definition blocking_section : list (string * json) :=
  [("category", JStr "Blocking Features"); ("details", JList [JDict record_r2])].

(** Three sections, two of them flat. *)
Definition sample_sections : list json :=
  [JDict (features_section [record_r1]); JDict templates_section;
   JDict blocking_section].

Definition sample_rows : list (list summary_item) :=
  [map (row_of (JStr "Unsupported Features")) [record_r1];
   [];
   map (row_of (JStr "Blocking Features")) [record_r2]].

(** Two sections filed under one category; the second has no record. *)
Definition duplicate_sections : list json :=
  [JDict (features_section [record_r1]); JDict (features_section [])].

(** Two sections filed under one category, both with a record. *)
Definition repeated_sections : list json :=
  [JDict (features_section [record_r1]); JDict (features_section [record_r2])].

Definition repeated_rows : list (list summary_item) :=
  [map (row_of (JStr "Unsupported Features")) [record_r1];
   map (row_of (JStr "Unsupported Features")) [record_r2]].

(** One section of a category that the program does not know. *)
Definition custom_section : json :=
  JDict [("category", JStr "Custom Checks");
         ("details", JList [JDict [("description", JStr "XYZZY")]])].

(** A small configuration tree. *)
Definition sample_tree : element :=
  Element "config" [] None None
    [Element "devices" [] None None
       [Element "entry" [("name", "alpha")] None None [];
        Element "entry" [("name", "beta")] None None
          [Element "vsys" [] (Some "v1") None []]]].

(** A root group with two unsupported descendants and one clean child. *)
Definition sample_groups : json :=
  JList [JDict [("name", JStr "root");
                ("total-unsupported", JInt 2);
                ("children",
                 JList [JDict [("name", JStr "leaf");
                               ("total-unsupported", JInt 0);
                               ("total-partially-supported", JInt 0)]])]].

(** ** Further notions on locator paths *)

(** A path made of slashes only, the empty path among them. *)
Definition only_slashes (path : string) : bool :=
  match lstrip slash path with
  | EmptyString => true
  | String _ _ => false
  end.

(** The locator paths that the card of a record goes through: the items
    of every value of the dictionary under [templates] of the field
    [referenced-in-with-xpaths]. *)
Definition record_paths (item : json) : list json :=
  match item with
  | JDict entries =>
      match field entries "referenced-in-with-xpaths" (JDict []) with
      | JDict refs =>
          match field refs "templates" JNull with
          | JDict templates =>
              flat_map (fun entry : string * json =>
                          match py_iter (snd entry) with
                          | Ok xpaths => xpaths
                          | Raise _ => []
                          end)
                       templates
          | _ => []
          end
      | _ => []
      end
  | _ => []
  end.

(** The locator paths of the records of a flat section. *)
Definition section_paths (details : json) : list json :=
  flat_map record_paths
           match py_iter details with
           | Ok items => items
           | Raise _ => []
           end.

(** A record whose one locator path names an entry that the sample tree
    does not have. *)
Definition record_gamma : json :=
  record_with_path (lit "/devices/entry[@name=`gamma`]/vsys").

(** ** First and last characters *)

Definition head_is (c : ascii) (s : string) : bool :=
  match s with
  | EmptyString => false
  | String a _ => Ascii.eqb a c
  end.

Fixpoint last_is (c : ascii) (s : string) : bool :=
  match s with
  | EmptyString => false
  | String a EmptyString => Ascii.eqb a c
  | String _ r => last_is c r
  end.


(** ** The table of contents, from the sections of the input *)




(** The text fields of a finding record. *)
Definition text_keys : list string :=
  ["description"; "rule-id"; "feature"; "tag"; "group"; "location"].

(** A record that the cards accept as far as its text fields go: a
    dictionary in which each of them is missing or a text. *)
Definition texts_ok (item : json) : Prop :=
  exists entries,
    item = JDict entries
    /\ Forall (fun k => exists s, field entries k (JStr "N/A") = JStr s) text_keys.

(** A section that the assembler can file: a dictionary whose category
    can be the key of a dictionary. *)
Definition section_ok (section : json) : Prop :=
  exists entries,
    section = JDict entries
    /\ py_hashable (field entries "category" (JStr "Unknown")) = true.

(** ** Trees of device groups *)







(** ** The configuration summary and the templates, on typed input *)

(** The markup of one item of the configuration summary. *)
Definition summary_item_markup {RT : Runtime} (item : list (string * json)) : string :=
  lit "
        <div class=`summary-item`>
            <span class=`summary-label`>" ++ escape_str (py_str (field item "description" (JStr "N/A"))) ++ lit ":</span>
            <span class=`summary-value`>" ++ escape_str (py_str (field item "count" (JStr "N/A"))) ++ "</span>
        </div>
        ".

(** A template with the features that are dropped, unsupported ones and
    supported ones. *)
Definition template_json (t : string * (list string * list string)) : string * json :=
  (fst t,
   JDict [("unsupported-drop", JList (map JStr (fst (snd t))));
          ("supported-drop", JList (map JStr (snd (snd t))))]).

(** A labelled list of features, absent when there is no feature. *)
Definition feature_block (title items_open : string) (features : list string) : string :=
  match features with
  | [] => ""
  | _ =>
      lit "<div class=`template-section`>" ++ title ++ items_open
        ++ String.concat "" (map (fun f => "<li>" ++ escape_str f ++ "</li>") features)
        ++ "</ul></div>"
  end.

(** The card of a template: its name and its two lists. *)
Definition template_card (t : string * (list string * list string)) : string :=
  lit "
        <div class=`template-card`>
            <h4 class=`template-name`>" ++ escape_str (fst t) ++ "</h4>
        "
    ++ feature_block (lit "<h5 class=`section-title unsupported-title`>Unsupported Features:</h5>")
                     (lit "<ul class=`feature-list unsupported-list`>") (fst (snd t))
    ++ feature_block (lit "<h5 class=`section-title supported-title`>Supported but Dropped:</h5>")
                     (lit "<ul class=`feature-list supported-list`>") (snd (snd t))
    ++ "</div>".

(** A document whose one record points at a node the tree does not have. *)
Definition gamma_document : json :=
  JList [JDict [("category", JStr "Unsupported Features");
                ("details", JList [record_gamma])]].

(** ** The configuration block of a locator path *)

(** The block that the card adds under a path, around the text [shown]. *)
Definition xml_block (shown : string) : string :=
  lit "<div class=`xml-content`>"
    ++ lit "<div class=`xml-content-header`>Configuration XML:</div>"
    ++ lit "<pre class=`xml-code`>" ++ escape_str shown ++ "</pre>"
    ++ "</div>".

(** * Properties *)

(** ** Strings *)

Lemma append_assoc (a b c : string) : (a ++ b) ++ c = a ++ (b ++ c).
Proof.
  induction a as [|x a IH]; simpl.
  - reflexivity.
  - now rewrite IH.
Qed.

Lemma append_empty_r (a : string) : a ++ "" = a.
Proof.
  induction a as [|x a IH]; simpl.
  - reflexivity.
  - now rewrite IH.
Qed.

Lemma split_not_nil (sep : ascii) (s : string) : split sep s <> [].
Proof.
  induction s as [|a r IH]; simpl.
  - discriminate.
  - destruct (Ascii.eqb a sep); [discriminate|].
    destruct (split sep r); [contradiction|discriminate].
Qed.

Lemma join_cons_char (sep : string) (a : ascii) (h : string) (t : list string) :
  join sep (String a h :: t) = String a (join sep (h :: t)).
Proof.
  destruct t; reflexivity.
Qed.

(** Joining what [split] gave restores the string. *)
Lemma join_split (s : string) : join "/" (split slash s) = s.
Proof.
  induction s as [|a r IH]; simpl.
  - reflexivity.
  - destruct (Ascii.eqb_spec a slash) as [->|Hne].
    + pose proof (split_not_nil slash r) as Hnil.
      destruct (split slash r) as [|h t] eqn:E; [contradiction|].
      change (join "/" ("" :: h :: t)) with ("/" ++ join "/" (h :: t)).
      now rewrite IH.
    + pose proof (split_not_nil slash r) as Hnil.
      destruct (split slash r) as [|h t] eqn:E; [contradiction|].
      rewrite join_cons_char. now rewrite IH.
Qed.

Lemma map_kept (parts : list string) :
  forallb kept_segment parts = true -> map format_part parts = parts.
Proof.
  induction parts as [|p rest IH]; simpl; intros H.
  - reflexivity.
  - apply andb_true_iff in H. destruct H as [Hp Hrest].
    rewrite (IH Hrest). f_equal.
    unfold kept_segment in Hp. unfold format_part.
    destruct (contains entry_marker p); simpl in Hp; [|reflexivity].
    destruct (re_search_entry p); [discriminate|reflexivity].
Qed.

(** ** The recursion over the device groups *)

Section DeviceGroupTree.
Context {RT : Runtime}.




End DeviceGroupTree.

(** ** The locator resolver *)

Lemma scan_children_found (test : element -> bool) (children : list element)
      (current child : element) :
  scan_children test children current = (child, true) <->
  first_match test children child.
Proof.
  induction children as [|c rest IH]; simpl.
  - split.
    + discriminate.
    + intros (before & after & E & _). destruct before; discriminate.
  - destruct (test c) eqn:T.
    + split.
      * intros E. inversion E; subst.
        exists [], rest. repeat split; auto.
      * intros (before & after & E & Tc & Hb).
        destruct before as [|b before]; simpl in E; inversion E; subst.
        -- reflexivity.
        -- inversion Hb; subst. congruence.
    + rewrite IH. split.
      * intros (before & after & E & Tc & Hb).
        exists (c :: before), after. subst. repeat split; auto.
      * intros (before & after & E & Tc & Hb).
        destruct before as [|b before]; simpl in E; inversion E; subst.
        -- congruence.
        -- inversion Hb; subst. exists before, after. repeat split; auto.
Qed.

Lemma scan_children_flag (test : element -> bool) (children : list element)
      (current : element) :
  snd (scan_children test children current) = false ->
  forall child, ~ first_match test children child.
Proof.
  intros H child Hm.
  apply (scan_children_found test children current) in Hm.
  rewrite Hm in H. discriminate.
Qed.

Lemma walk_parts_resolves (parts : list string) (current target : element) :
  walk_parts parts current = Some target <-> resolves current parts target.
Proof.
  revert current. induction parts as [|part rest IH]; intros current; simpl.
  - split.
    + intros E. inversion E. constructor.
    + intros R. inversion R. reflexivity.
  - destruct (contains entry_marker part) eqn:M.
    + destruct (re_search_entry part) as [value|] eqn:S.
      * destruct (scan_children _ (elem_children current) current)
          as [current' found] eqn:Sc.
        destruct found; simpl.
        -- apply scan_children_found in Sc. rewrite IH. split.
           ++ intros R. eapply resolves_step; [|exact R].
              eapply step_predicate; eauto.
           ++ intros R. inversion R as [|? ? child ? ? St R']; subst.
              inversion St as [? v ? _ S' Fm|? ? M' _]; subst; [|congruence].
              rewrite S in S'. inversion S'; subst.
              apply (scan_children_found _ _ current) in Fm.
              rewrite (proj2 (scan_children_found _ _ current _) Sc) in Fm.
              inversion Fm; subst. exact R'.
        -- split; [discriminate|].
           intros R. inversion R as [|? ? child ? ? St R']; subst.
           inversion St as [? v ? _ S' Fm|? ? M' _]; subst; [|congruence].
           rewrite S in S'. inversion S'; subst.
           exfalso. eapply scan_children_flag; [|exact Fm].
           rewrite Sc. reflexivity.
      * split; [discriminate|].
        intros R. inversion R as [|? ? child ? ? St R']; subst.
        inversion St; subst; congruence.
    + destruct (scan_children _ (elem_children current) current)
        as [current' found] eqn:Sc.
      destruct found; simpl.
      * apply scan_children_found in Sc. rewrite IH. split.
        -- intros R. eapply resolves_step; [|exact R].
           eapply step_bare; eauto.
        -- intros R. inversion R as [|? ? child ? ? St R']; subst.
           inversion St as [? v ? M' _ _|? ? _ Fm]; subst; [congruence|].
           apply (scan_children_found _ _ current) in Fm.
           rewrite (proj2 (scan_children_found _ _ current _) Sc) in Fm.
           inversion Fm; subst. exact R'.
      * split; [discriminate|].
        intros R. inversion R as [|? ? child ? ? St R']; subst.
        inversion St as [? v ? M' _ _|? ? _ Fm]; subst; [congruence|].
        exfalso. eapply scan_children_flag; [|exact Fm].
        rewrite Sc. reflexivity.
Qed.

Section ResolverProperties.

Context {RT : Runtime}.

Lemma extract_xml_try_some (root : element) (xpath : json) (out : string) :
  extract_xml_try root xpath = Ok (Some out) <->
  exists path node,
    xpath = JStr path
    /\ resolves root (segments path) node
    /\ ET_tostring node = Ok out.
Proof.
  unfold extract_xml_try, segments. split.
  - destruct xpath as [| | |path| |]; simpl; try discriminate.
    destruct (walk_parts _ root) as [node|] eqn:W; [|discriminate].
    destruct (ET_tostring node) as [s|e] eqn:T; simpl; [|discriminate].
    intros E. inversion E; subst.
    exists path, node. repeat split; auto.
    now apply walk_parts_resolves.
  - intros (path & node & -> & R & T). simpl.
    apply walk_parts_resolves in R. rewrite R, T. reflexivity.
Qed.

(** C1. The resolver never raises, and it returns a text exactly when the
    walk over all the segments of the path, from the root and by first
    matching children, arrives at a node that the runtime can write out:
    the text is that node, never a node reached by a prefix of the path.
    Without a configuration tree, for a path that is not a string, for a
    segment with no matching child and for a predicate that the pattern
    does not match, it returns [None]. *)
Theorem extract_xml_from_xpath_resolves (root : option element) (xpath : json) :
  (exists r, extract_xml_from_xpath root xpath = Ok r)
  /\ (forall out,
        extract_xml_from_xpath root xpath = Ok (Some out) <->
        exists r path node,
          root = Some r
          /\ xpath = JStr path
          /\ resolves r (segments path) node
          /\ ET_tostring node = Ok out).
Proof.
  split.
  - unfold extract_xml_from_xpath. destruct root as [r|]; [|eauto].
    destruct (extract_xml_try r xpath); eauto.
  - intros out. unfold extract_xml_from_xpath.
    destruct root as [r|].
    + destruct (extract_xml_try r xpath) as [v|e] eqn:E.
      * split.
        -- intros H. inversion H; subst.
           apply extract_xml_try_some in E.
           destruct E as (path & node & ? & ? & ?).
           exists r, path, node. auto.
        -- intros (r' & path & node & Hr & Hx & R & T).
           inversion Hr; subst r'.
           assert (E' : extract_xml_try r xpath = Ok (Some out))
             by (apply extract_xml_try_some; eauto).
           rewrite E in E'. exact E'.
      * split; [discriminate|].
        intros (r' & path & node & Hr & Hx & R & T).
        inversion Hr; subst r'.
        assert (E' : extract_xml_try r xpath = Ok (Some out))
          by (apply extract_xml_try_some; eauto).
        rewrite E in E'. discriminate.
    + split; [discriminate|].
      intros (r' & _ & _ & Hr & _). discriminate.
Qed.

(** The formatter on any string: it returns, and a segment is replaced by
    the value of its predicate only when the pattern matches. *)
Lemma format_xpath_total (path : string) :
  format_xpath (JStr path)
  = Ok ("/" ++ join "/" (map format_part (split slash (strip slash path)))).
Proof.
  reflexivity.
Qed.

(** On a path whose segments are all kept, the formatter only strips the
    slashes at both ends and puts one in front. *)
Lemma format_xpath_kept (path : string) :
  bare_path path = true ->
  format_xpath (JStr path) = Ok ("/" ++ strip slash path).
Proof.
  intros H. unfold bare_path in H.
  rewrite format_xpath_total, (map_kept _ H), join_split. reflexivity.
Qed.

(** C7. On a path whose segments are all kept (no name predicate, or one
    that the pattern does not match), the formatter returns the path with
    its leading and trailing slashes stripped and one slash in front; on
    every string it returns without failing. *)
Theorem format_xpath_bare (path : string) :
  bare_path path = true ->
  format_xpath (JStr path) = Ok ("/" ++ strip slash path)
  /\ join "/" (split slash (strip slash path)) = strip slash path
  /\ forall other, exists out, format_xpath (JStr other) = Ok out.
Proof.
  intros H. split; [|split].
  - now apply format_xpath_kept.
  - apply join_split.
  - intros other. eexists. apply format_xpath_total.
Qed.

End ResolverProperties.

Lemma format_xpath_bare_witness :
  bare_path "//devices/localhost//vsys/" = true
  /\ @format_xpath (JStr "//devices/localhost//vsys/") = Ok "/devices/localhost//vsys".
Proof.
  split.
  - reflexivity.
  - apply (format_xpath_bare "//devices/localhost//vsys/"). reflexivity.
Defined.

(** ** The record aggregator *)

Lemma for_each_app {A S : Type} (body : S -> A -> result S) (xs ys : list A) (acc : S) :
  for_each body (xs ++ ys) acc = (acc' <- for_each body xs acc ;; for_each body ys acc').
Proof.
  revert acc. induction xs as [|x xs IH]; intros acc; simpl.
  - reflexivity.
  - destruct (body acc x); simpl; auto.
Qed.

Lemma py_get_field (entries : list (string * json)) (k : string) (default : json) :
  py_get (JDict entries) k default = Ok (field entries k default).
Proof.
  unfold py_get, field. destruct (dict_lookup k entries); reflexivity.
Qed.

Lemma make_summary_item_row (category : json) (item : list (string * json)) :
  make_summary_item category (JDict item) = Ok (row_of category item).
Proof.
  unfold make_summary_item. rewrite !py_get_field. reflexivity.
Qed.

Lemma collect_records (category : json) (records : list (list (string * json)))
      (all_items : list summary_item) :
  for_each
    (fun all_items item =>
       summary_item <- make_summary_item category item ;;
       Ok (all_items ++ [summary_item])%list)
    (map JDict records) all_items
  = Ok (all_items ++ map (row_of category) records)%list.
Proof.
  revert all_items. induction records as [|r rest IH]; intros all_items; simpl.
  - now rewrite app_nil_r.
  - rewrite make_summary_item_row. simpl. rewrite IH.
    now rewrite <- app_assoc.
Qed.

Lemma collect_sections (sections : list json) (rows : list (list summary_item))
      (all_items : list summary_item) :
  Forall2 section_rows sections rows ->
  for_each
    (fun all_items section =>
       category <- py_get section "category" (JStr "") ;;
       if py_in_strs category flat_categories then
         details <- py_get section "details" (JList []) ;;
         items <- py_iter details ;;
         for_each
           (fun all_items item =>
              summary_item <- make_summary_item category item ;;
              Ok (all_items ++ [summary_item])%list)
           items all_items
       else Ok all_items)
    sections all_items
  = Ok (all_items ++ concat rows)%list.
Proof.
  intros H. revert all_items.
  induction H as [|section r sections rows Hs _ IH]; intros all_items;
    cbn [for_each concat].
  - now rewrite app_nil_r.
  - destruct Hs as [section records Hflat Hdetails|section Hother].
    + rewrite py_get_field. cbn [bind]. rewrite Hflat.
      rewrite py_get_field. cbn [bind]. rewrite Hdetails. cbn [bind].
      rewrite collect_records. cbn [bind]. rewrite IH. now rewrite <- app_assoc.
    + rewrite py_get_field. cbn [bind]. rewrite Hother. apply IH.
Qed.

Lemma collect_all_items_concat (sections : list json)
      (rows : list (list summary_item)) :
  Forall2 section_rows sections rows ->
  collect_all_items (JList sections) = Ok (concat rows).
Proof.
  intros H. unfold collect_all_items. cbn [py_iter bind].
  now rewrite (collect_sections _ _ [] H).
Qed.

Lemma make_summary_item_dict (category item : json) (row : summary_item) :
  make_summary_item category item = Ok row ->
  exists record, item = JDict record /\ row = row_of category record.
Proof.
  destruct item as [| | | | |record]; try discriminate.
  rewrite make_summary_item_row. intros E. inversion E. now exists record.
Qed.

Lemma collect_records_inv (category : json) (items : list json)
      (all_items result : list summary_item) :
  for_each
    (fun all_items item =>
       summary_item <- make_summary_item category item ;;
       Ok (all_items ++ [summary_item])%list)
    items all_items = Ok result ->
  exists records,
    items = map JDict records
    /\ result = (all_items ++ map (row_of category) records)%list.
Proof.
  revert all_items. induction items as [|item rest IH]; intros all_items;
    cbn [for_each].
  - intros E. inversion E. exists []. now rewrite app_nil_r.
  - destruct (make_summary_item category item) as [row|e] eqn:M; cbn [bind];
      [|discriminate].
    apply make_summary_item_dict in M. destruct M as (record & -> & ->).
    intros E. apply IH in E. destruct E as (records & -> & ->).
    exists (record :: records). cbn [map]. now rewrite <- app_assoc.
Qed.

Lemma collect_sections_inv (sections : list json)
      (all_items result : list summary_item) :
  for_each
    (fun all_items section =>
       category <- py_get section "category" (JStr "") ;;
       if py_in_strs category flat_categories then
         details <- py_get section "details" (JList []) ;;
         items <- py_iter details ;;
         for_each
           (fun all_items item =>
              summary_item <- make_summary_item category item ;;
              Ok (all_items ++ [summary_item])%list)
           items all_items
       else Ok all_items)
    sections all_items = Ok result ->
  exists rows,
    Forall2 section_rows sections rows
    /\ result = (all_items ++ concat rows)%list.
Proof.
  revert all_items. induction sections as [|section rest IH]; intros all_items;
    cbn [for_each].
  - intros E. inversion E. exists []. split; [constructor|].
    now rewrite app_nil_r.
  - destruct section as [| | | | |entries]; try discriminate.
    rewrite py_get_field. cbn [bind].
    destruct (py_in_strs (field entries "category" (JStr "")) flat_categories)
      eqn:Hflat.
    + rewrite py_get_field. cbn [bind].
      destruct (py_iter (field entries "details" (JList []))) as [items|e] eqn:It;
        cbn [bind]; [|discriminate].
      destruct (for_each _ items all_items) as [mid|e] eqn:In; cbn [bind];
        [|discriminate].
      apply collect_records_inv in In. destruct In as (records & -> & ->).
      intros E. apply IH in E. destruct E as (rows & F & ->).
      exists (map (row_of (field entries "category" (JStr ""))) records :: rows).
      split.
      * constructor; [|exact F]. now apply rows_flat.
      * cbn [concat]. now rewrite <- app_assoc.
    + intros E. apply IH in E. destruct E as (rows & F & ->).
      exists ([] :: rows). split; [|reflexivity].
      constructor; [|exact F]. now apply rows_other.
Qed.

(** C6. For a document that is a list of sections, the aggregator returns
    rows exactly when every section is a dictionary and the details of
    every flat section give records, and the rows are then those of the
    sections one after the other: a flat section gives one row per
    record in the order of the records, every other section gives none;
    a row holds the category and the seven fields of its record, with the
    placeholder [N/A] for a missing field and [0] for a missing count. *)
Theorem collect_all_items_rows (sections : list json) (result : list summary_item) :
  collect_all_items (JList sections) = Ok result <->
  exists rows,
    Forall2 section_rows sections rows /\ result = concat rows.
Proof.
  split.
  - unfold collect_all_items. cbn [py_iter bind]. intros E.
    apply collect_sections_inv in E. exact E.
  - intros (rows & F & ->). now apply collect_all_items_concat.
Qed.

(** ** The dictionary of sections *)

Lemma py_key_eqb_str (k : json) (cat : string) :
  py_key_eqb k (JStr cat) = py_eq_str k cat.
Proof.
  destruct k as [|b|z|s|l|d]; reflexivity.
Qed.

Lemma py_eq_str_true (k : json) (cat : string) :
  py_eq_str k cat = true -> k = JStr cat.
Proof.
  destruct k; simpl; try discriminate.
  intros H. apply String.eqb_eq in H. now subst.
Qed.

Lemma py_key_eqb_same_str (k' k : json) (cat : string) :
  py_key_eqb k' k = true -> py_eq_str k' cat = py_eq_str k cat.
Proof.
  destruct k' as [|b'|z'|s'|l'|d'], k as [|b|z|s|l|d]; simpl;
    try discriminate; try reflexivity.
  intros H. apply String.eqb_eq in H. now subst.
Qed.

Lemma py_eq_str_key (k : json) (cat : string) :
  py_eq_str k cat = true -> forall k', py_eq_str k' cat = true -> py_key_eqb k' k = true.
Proof.
  intros H k' H'. apply py_eq_str_true in H. apply py_eq_str_true in H'.
  subst. simpl. apply String.eqb_refl.
Qed.

Lemma dict_find_set (d : list (json * json)) (k v : json) (cat : string) :
  dict_find (dict_set d k v) cat
  = if py_eq_str k cat then Some v else dict_find d cat.
Proof.
  induction d as [|[k' v'] rest IH]; simpl.
  - now rewrite py_key_eqb_str.
  - destruct (py_key_eqb k' k) eqn:E; simpl; rewrite py_key_eqb_str.
    + rewrite (py_key_eqb_same_str _ _ cat E).
      destruct (py_eq_str k cat); reflexivity.
    + rewrite IH.
      destruct (py_eq_str k' cat) eqn:E'; [|reflexivity].
      destruct (py_eq_str k cat) eqn:E''; [|reflexivity].
      rewrite (py_eq_str_key _ _ E'' _ E') in E. discriminate.
Qed.

(** After the loop, a category holds the details of the last section
    filed under it. *)
Lemma fill_sections_find (items : list json) (start sections : list (json * json)) :
  for_each
    (fun sections section =>
       category <- py_get section "category" (JStr "Unknown") ;;
       details <- py_get section "details" (JList []) ;;
       if py_hashable category then Ok (dict_set sections category details)
       else Raise TypeError)
    items start = Ok sections ->
  forall cat,
    dict_find sections cat
    = match last_details cat items with
      | Some details => Some details
      | None => dict_find start cat
      end.
Proof.
  revert start. induction items as [|section rest IH]; intros start H cat;
    cbn [for_each last_details] in *.
  - inversion H; subst. reflexivity.
  - destruct section as [| | | | |entries]; try discriminate.
    rewrite !py_get_field in H. cbn [bind] in H.
    destruct (py_hashable (field entries "category" (JStr "Unknown")));
      [|discriminate].
    cbn [bind] in H. rewrite (IH _ H cat).
    destruct (last_details cat rest); [reflexivity|].
    rewrite dict_find_set. cbn [filed_under details_of].
    destruct (py_eq_str (field entries "category" (JStr "Unknown")) cat);
      reflexivity.
Qed.

Lemma extract_sections_find (items : list json) (sections : list (json * json))
      (cat : string) :
  extract_sections (JList items) = Ok sections ->
  dict_find sections cat = last_details cat items.
Proof.
  unfold extract_sections. cbn [py_iter bind]. intros H.
  rewrite (fill_sections_find _ _ _ H cat).
  destruct (last_details cat items); reflexivity.
Qed.

Lemma last_details_present (cat : string) (items : list json) :
  category_present cat items
  = match last_details cat items with Some _ => true | None => false end.
Proof.
  unfold category_present.
  induction items as [|section rest IH]; simpl.
  - reflexivity.
  - rewrite IH. destruct (last_details cat rest).
    + apply orb_true_r.
    + rewrite orb_false_r. destruct (filed_under cat section); reflexivity.
Qed.

(** When the loop returns, the document is a list or there was nothing
    to iterate over: the items of a dictionary or of a string are
    strings, which have no [get]. *)
Lemma extract_sections_list (data : json) (sections : list (json * json)) :
  extract_sections data = Ok sections ->
  (exists items, data = JList items) \/ sections = [].
Proof.
  unfold extract_sections.
  destruct data as [| | |s|items|entries]; cbn [py_iter bind]; try discriminate.
  - destruct s; cbn [chars for_each]; [|discriminate].
    intros H. inversion H. now right.
  - intros _. left. now exists items.
  - destruct entries; cbn [map for_each]; [|discriminate].
    intros H. inversion H. now right.
Qed.

(** ** The shape of the report *)

Section ReportShape.

Context {RT : Runtime}.

Lemma concat_empty_cons (x : string) (l : list string) :
  String.concat "" (x :: l) = x ++ String.concat "" l.
Proof.
  destruct l; simpl.
  - now rewrite append_empty_r.
  - reflexivity.
Qed.

Lemma toc_fold (entries : list (string * string)) (html : string) :
  fold_left
    (fun html (entry : string * string) =>
       let (anchor, title) := entry in
       html ++ lit "                <li><a href=`#" ++ anchor ++ lit "`>" ++ escape_str title ++ "</a></li>
")
    entries html
  = html ++ String.concat "" (map toc_line entries).
Proof.
  revert html. induction entries as [|[anchor title] rest IH]; intros html.
  - simpl. now rewrite append_empty_r.
  - cbn [fold_left map]. rewrite IH, concat_empty_cons, append_assoc. reflexivity.
Qed.

Lemma block_step (html heading : string) (present : bool) (body : result string)
      (k : string -> result string) :
  (html' <- (if present then b <- body ;; Ok ((html ++ heading) ++ b) else Ok html) ;;
   k html')
  = (text <- block present heading body ;; k (html ++ text)).
Proof.
  unfold block. destruct present; cbn [bind].
  - destruct body; cbn [bind]; [|reflexivity]. now rewrite append_assoc.
  - now rewrite append_empty_r.
Qed.

Lemma stacks_step (html heading message : string) (present nonempty : bool)
      (body : result string) (k : string -> result string) :
  (html' <- (if present then
               if nonempty then b <- body ;; Ok ((html ++ heading) ++ b)
               else Ok ((html ++ heading) ++ message)
             else Ok html) ;;
   k html')
  = (text <- block present heading (if nonempty then body else Ok message) ;;
     k (html ++ text)).
Proof.
  rewrite <- block_step. destruct present, nonempty; reflexivity.
Qed.

(** The report, section by section. *)
Lemma report_equation (now : string) (data : json) (xml_root : option element) :
  generate_html_report now data xml_root
  = (sections <- extract_sections data ;;
     summary <- block (any_flat sections) summary_heading
                      (generate_summary_table data) ;;
     b1 <- kind_block sections xml_root kind_features ;;
     b2 <- kind_block sections xml_root kind_flags ;;
     b3 <- kind_block sections xml_root kind_blocking ;;
     b4 <- kind_block sections xml_root kind_config ;;
     b5 <- kind_block sections xml_root kind_templates ;;
     b6 <- kind_block sections xml_root kind_stacks ;;
     b7 <- kind_block sections xml_root kind_groups ;;
     Ok (page_top now (toc_entries sections) ++ summary
           ++ String.concat "" [b1; b2; b3; b4; b5; b6; b7] ++ page_end)).
Proof.
  unfold generate_html_report.
  destruct (extract_sections data) as [sections|e]; cbn [bind]; [|reflexivity].
  cbv zeta. rewrite toc_fold.
  unfold kind_block, summary_heading.
  cbn [sk_category sk_heading sk_render kind_features kind_flags kind_blocking
       kind_config kind_templates kind_stacks kind_groups].
  rewrite block_step.
  destruct (block (any_flat sections) _ _) as [summary|e]; cbn [bind]; [|reflexivity].
  rewrite block_step.
  destruct (block (sections_has sections "Unsupported Features") _ _) as [b1|e];
    cbn [bind]; [|reflexivity].
  rewrite block_step.
  destruct (block (sections_has sections "Unsupported Flags") _ _) as [b2|e];
    cbn [bind]; [|reflexivity].
  rewrite block_step.
  destruct (block (sections_has sections "Blocking Features") _ _) as [b3|e];
    cbn [bind]; [|reflexivity].
  rewrite block_step.
  destruct (block (sections_has sections "Configuration Summary") _ _) as [b4|e];
    cbn [bind]; [|reflexivity].
  rewrite block_step.
  destruct (block (sections_has sections "Templates") _ _) as [b5|e];
    cbn [bind]; [|reflexivity].
  rewrite stacks_step.
  destruct (block (sections_has sections "Template-stacks") _ _) as [b6|e];
    cbn [bind]; [|reflexivity].
  rewrite block_step.
  destruct (block (sections_has sections "Device Groups") _ _) as [b7|e];
    cbn [bind]; [|reflexivity].
  unfold page_top, page_end, toc_end.
  rewrite !concat_empty_cons. cbn [String.concat].
  rewrite !append_assoc, ?append_empty_r. reflexivity.
Qed.

Lemma report_of_parts (now : string) (data : json) (xml_root : option element) :
  generate_html_report now data xml_root
  = (parts <- report_parts data xml_root ;;
     Ok (page_top now (fst parts) ++ snd parts)).
Proof.
  rewrite report_equation. unfold report_parts.
  destruct (extract_sections data) as [sections|e]; cbn [bind]; [|reflexivity].
  destruct (block _ _ _) as [summary|e]; cbn [bind]; [|reflexivity].
  destruct (kind_block sections xml_root kind_features); cbn [bind]; [|reflexivity].
  destruct (kind_block sections xml_root kind_flags); cbn [bind]; [|reflexivity].
  destruct (kind_block sections xml_root kind_blocking); cbn [bind]; [|reflexivity].
  destruct (kind_block sections xml_root kind_config); cbn [bind]; [|reflexivity].
  destruct (kind_block sections xml_root kind_templates); cbn [bind]; [|reflexivity].
  destruct (kind_block sections xml_root kind_stacks); cbn [bind]; [|reflexivity].
  destruct (kind_block sections xml_root kind_groups); cbn [bind]; [|reflexivity].
  reflexivity.
Qed.

End ReportShape.

Section ReportFromInput.

Context {RT : Runtime}.

Lemma extract_sections_last (data : json) (sections : list (json * json))
      (cat : string) :
  extract_sections data = Ok sections ->
  dict_find sections cat = last_details cat (document_sections data).
Proof.
  intros H. destruct (extract_sections_list _ _ H) as [[items ->]| ->].
  - now apply extract_sections_find.
  - destruct data as [| | |s|items|entries]; try reflexivity.
    now apply extract_sections_find.
Qed.

Lemma sections_has_present (data : json) (sections : list (json * json))
      (cat : string) :
  extract_sections data = Ok sections ->
  sections_has sections cat = category_present cat (document_sections data).
Proof.
  intros H. unfold sections_has.
  rewrite (extract_sections_last _ _ cat H), last_details_present. reflexivity.
Qed.

Lemma any_flat_records (data : json) (sections : list (json * json)) :
  extract_sections data = Ok sections ->
  any_flat sections = flat_records (document_sections data).
Proof.
  intros H. unfold any_flat, flat_records, sections_get, flat_categories.
  cbn [existsb]. rewrite !(extract_sections_last _ _ _ H).
  destruct (last_details "Unsupported Features" _),
    (last_details "Unsupported Flags" _),
    (last_details "Blocking Features" _); reflexivity.
Qed.

Lemma kind_block_emitted (data : json) (sections : list (json * json))
      (xml_root : option element) (kind : section_kind) (text : string) :
  extract_sections data = Ok sections ->
  kind_block sections xml_root kind = Ok text <->
  emitted (document_sections data) xml_root kind text.
Proof.
  intros H. unfold kind_block, emitted, block, sections_get.
  rewrite (sections_has_present _ _ _ H), (extract_sections_last _ _ _ H).
  rewrite last_details_present.
  destruct (last_details (sk_category kind) (document_sections data))
    as [details|].
  - split.
    + destruct (sk_render kind details xml_root) as [body|e] eqn:R; cbn [bind];
        [|discriminate].
      intros E. inversion E. exists details, body. auto.
    + intros (details' & body & E & R & ->). inversion E; subst.
      rewrite R. reflexivity.
  - split.
    + intros E. now inversion E.
    + intros ->. reflexivity.
Qed.

(** The report as a whole: the page top with the table of contents, the
    summary, the seven sections in the canonical order, the page end. *)
Lemma report_shape (now : string) (data : json) (xml_root : option element)
      (out : string) :
  generate_html_report now data xml_root = Ok out <->
  exists sections summary blocks,
    extract_sections data = Ok sections
    /\ block (flat_records (document_sections data)) summary_heading
             (generate_summary_table data) = Ok summary
    /\ Forall2 (emitted (document_sections data) xml_root) canonical_sections blocks
    /\ out = page_top now (toc_entries sections) ++ summary
               ++ String.concat "" blocks ++ page_end.
Proof.
  rewrite report_equation. split.
  - destruct (extract_sections data) as [sections|e] eqn:Es; cbn [bind];
      [|discriminate].
    rewrite (any_flat_records _ _ Es).
    destruct (block (flat_records _) _ _) as [summary|e]; cbn [bind];
      [|discriminate].
    destruct (kind_block sections xml_root kind_features) as [b1|e] eqn:E1;
      cbn [bind]; [|discriminate].
    destruct (kind_block sections xml_root kind_flags) as [b2|e] eqn:E2;
      cbn [bind]; [|discriminate].
    destruct (kind_block sections xml_root kind_blocking) as [b3|e] eqn:E3;
      cbn [bind]; [|discriminate].
    destruct (kind_block sections xml_root kind_config) as [b4|e] eqn:E4;
      cbn [bind]; [|discriminate].
    destruct (kind_block sections xml_root kind_templates) as [b5|e] eqn:E5;
      cbn [bind]; [|discriminate].
    destruct (kind_block sections xml_root kind_stacks) as [b6|e] eqn:E6;
      cbn [bind]; [|discriminate].
    destruct (kind_block sections xml_root kind_groups) as [b7|e] eqn:E7;
      cbn [bind]; [|discriminate].
    intros E. inversion E; subst out.
    exists sections, summary, [b1; b2; b3; b4; b5; b6; b7].
    repeat split; auto.
    unfold canonical_sections.
    repeat (constructor; [now apply (kind_block_emitted data sections)|]).
    constructor.
  - intros (sections & summary & blocks & Es & Su & F & ->).
    rewrite Es. cbn [bind]. rewrite (any_flat_records _ _ Es), Su. cbn [bind].
    unfold canonical_sections in F.
    repeat match goal with
           | F : Forall2 _ (_ :: _) _ |- _ =>
               let Hk := fresh "Hk" in
               let F' := fresh "F" in
               inversion F as [|? ? ? ? Hk F']; subst; clear F;
               apply (kind_block_emitted data sections) in Hk; [|exact Es];
               rewrite Hk; cbn [bind]
           end.
    match goal with
    | F : Forall2 _ [] _ |- _ => inversion F; subst
    end.
    reflexivity.
Qed.

End ReportFromInput.

Section AssemblerProperties.

Context {RT : Runtime}.

Lemma in_optional_entry (x e : string * string) (c : bool) (l : list (string * string)) :
  x <> e -> (In x (if c then (l ++ [e])%list else l) <-> In x l).
Proof.
  intros Hne. destruct c; [|reflexivity].
  rewrite in_app_iff. simpl. intuition congruence.
Qed.

Lemma summary_in_toc (sections : list (json * json)) :
  In summary_entry (toc_entries sections) <-> any_flat sections = true.
Proof.
  unfold toc_entries, summary_entry. cbv zeta.
  rewrite !in_optional_entry by discriminate.
  destruct (any_flat sections); simpl; intuition congruence.
Qed.

(** C4. In a report that is produced, the text after the table of
    contents is the summary (or nothing) followed by one text for each of
    the seven kinds of section in the canonical order; the text for a kind
    is its heading and its body when the category is present in the
    input, with no condition on the details, and is empty when the
    category is absent. *)
Theorem report_sections_in_canonical_order
        (now : string) (data : json) (xml_root : option element) (out : string) :
  generate_html_report now data xml_root = Ok out ->
  exists entries summary blocks,
    out = page_top now entries ++ summary ++ String.concat "" blocks ++ page_end
    /\ (summary = "" \/ exists table, summary = summary_heading ++ table)
    /\ Forall2 (emitted (document_sections data) xml_root) canonical_sections blocks.
Proof.
  intros H. apply report_shape in H.
  destruct H as (sections & summary & blocks & _ & Su & F & ->).
  exists (toc_entries sections), summary, blocks.
  repeat split; auto.
  unfold block in Su. destruct (flat_records _).
  - destruct (generate_summary_table data) as [table|e]; cbn [bind] in Su;
      [|discriminate].
    inversion Su. right. now exists table.
  - inversion Su. now left.
Qed.

(** C5 as the code has it.  In a report that is produced, the entry of
    the summary is in the table of contents, and the summary section is
    in the page, exactly when, for one of the three flat categories, the
    last section filed under it has details that are not empty. *)
Theorem summary_iff_last_flat_details
        (now : string) (data : json) (xml_root : option element) (out : string) :
  generate_html_report now data xml_root = Ok out ->
  exists entries summary blocks,
    out = page_top now entries ++ summary ++ String.concat "" blocks ++ page_end
    /\ (In summary_entry entries <-> flat_records (document_sections data) = true)
    /\ (if flat_records (document_sections data)
        then exists table, generate_summary_table data = Ok table
                           /\ summary = summary_heading ++ table
        else summary = "").
Proof.
  intros H. apply report_shape in H.
  destruct H as (sections & summary & blocks & Es & Su & _ & ->).
  exists (toc_entries sections), summary, blocks.
  split; [reflexivity|]. split.
  - rewrite summary_in_toc. now rewrite (any_flat_records _ _ Es).
  - unfold block in Su. destruct (flat_records _).
    + destruct (generate_summary_table data) as [table|e]; cbn [bind] in Su;
        [|discriminate].
      inversion Su. now exists table.
    + now inversion Su.
Qed.

(** C8. The clock value enters the report at one place.  For a document
    and a configuration tree, either every clock value gives the same
    exception, or there is one text that follows the generation time in
    the report for every clock value. *)
Theorem report_differs_only_in_timestamp (data : json) (xml_root : option element) :
  (exists e, forall now, generate_html_report now data xml_root = Raise e)
  \/ (exists rest, forall now,
        generate_html_report now data xml_root
        = Ok (page_head ++ escape_str now ++ rest)).
Proof.
  destruct (report_parts data xml_root) as [[entries text]|e] eqn:E.
  - right.
    exists (page_head_end ++ String.concat "" (map toc_line entries)
              ++ toc_end ++ text).
    intros now. rewrite report_of_parts, E. cbn [bind fst snd].
    unfold page_top. now rewrite !append_assoc.
  - left. exists e. intros now. rewrite report_of_parts, E. reflexivity.
Qed.

End AssemblerProperties.

(** ** Sections filed under one category, and sections of no known
    category *)

Section CategoryProperties.

Context {RT : Runtime}.

Lemma last_details_app (cat : string) (xs ys : list json) :
  last_details cat (xs ++ ys)
  = match last_details cat ys with
    | Some details => Some details
    | None => last_details cat xs
    end.
Proof.
  induction xs as [|x xs IH]; simpl.
  - destruct (last_details cat ys); reflexivity.
  - rewrite IH. destruct (last_details cat ys); reflexivity.
Qed.

Lemma last_details_none (cat : string) (xs : list json) :
  Forall (fun s => filed_under cat s = false) xs -> last_details cat xs = None.
Proof.
  induction 1 as [|x xs Hx _ IH]; simpl.
  - reflexivity.
  - now rewrite IH, Hx.
Qed.

(** C10. When two sections are filed under one category and no later
    section is, the category map holds the details of the second one, a
    section of the report for that category is rendered from these
    details alone, and the rows of the summary are still those of all the
    sections in the order of the input. *)
Theorem duplicate_category_last_wins
        (pre mid post : list json) (first second : list (string * json))
        (cat : string) (rows : list (list summary_item))
        (now : string) (xml_root : option element) (out : string) :
  let items := (pre ++ JDict first :: mid ++ JDict second :: post)%list in
  filed_under cat (JDict first) = true ->
  filed_under cat (JDict second) = true ->
  Forall (fun s => filed_under cat s = false) post ->
  Forall2 section_rows items rows ->
  generate_html_report now (JList items) xml_root = Ok out ->
  (forall sections, extract_sections (JList items) = Ok sections ->
                    sections_get sections cat = field second "details" (JList []))
  /\ (exists entries summary blocks,
        out = page_top now entries ++ summary ++ String.concat "" blocks ++ page_end
        /\ Forall2 (emitted items xml_root) canonical_sections blocks
        /\ forall kind text,
             sk_category kind = cat ->
             emitted items xml_root kind text ->
             exists body,
               sk_render kind (field second "details" (JList [])) xml_root = Ok body
               /\ text = sk_heading kind ++ body)
  /\ collect_all_items (JList items) = Ok (concat rows).
Proof.
  intros items H1 H2 Hpost Hrows Hout.
  assert (L : last_details cat items = Some (field second "details" (JList []))).
  { unfold items. rewrite last_details_app. cbn [last_details].
    rewrite last_details_app. cbn [last_details].
    rewrite (last_details_none _ _ Hpost), H2. reflexivity. }
  split; [|split].
  - intros sections Es. unfold sections_get.
    rewrite (extract_sections_find _ _ cat Es), L. reflexivity.
  - apply report_shape in Hout.
    destruct Hout as (sections & summary & blocks & _ & _ & F & ->).
    exists (toc_entries sections), summary, blocks.
    repeat split; auto.
    intros kind text Hk Hem. unfold emitted in Hem.
    cbn [document_sections] in *. rewrite Hk in Hem.
    rewrite last_details_present, L in Hem.
    destruct Hem as (details & body & E & R & ->).
    inversion E; subst. now exists body.
  - now apply collect_all_items_concat.
Qed.

(** What the assembler reads in its dictionary. *)
Lemma report_reads_known (s1 s2 : list (json * json)) (xml_root : option element) :
  (forall cat, In cat known_categories -> dict_find s1 cat = dict_find s2 cat) ->
  any_flat s1 = any_flat s2
  /\ toc_entries s1 = toc_entries s2
  /\ forall kind, In kind canonical_sections ->
                  kind_block s1 xml_root kind = kind_block s2 xml_root kind.
Proof.
  intros H.
  assert (G : forall cat, In cat known_categories -> sections_get s1 cat = sections_get s2 cat)
    by (intros cat Hc; unfold sections_get; now rewrite (H cat Hc)).
  assert (K : forall cat, In cat known_categories -> sections_has s1 cat = sections_has s2 cat)
    by (intros cat Hc; unfold sections_has; now rewrite (H cat Hc)).
  split; [|split].
  - unfold any_flat, flat_categories. cbn [existsb].
    rewrite !G by (simpl; tauto). reflexivity.
  - unfold toc_entries. rewrite !G, !K by (simpl; tauto).
    unfold any_flat, flat_categories. cbn [existsb].
    rewrite !G by (simpl; tauto). reflexivity.
  - intros kind Hk. unfold kind_block.
    assert (Hc : In (sk_category kind) known_categories).
    { unfold canonical_sections in Hk. simpl in Hk.
      repeat (destruct Hk as [<-|Hk]; [simpl; tauto|]). contradiction. }
    now rewrite (G _ Hc), (K _ Hc).
Qed.

End CategoryProperties.

Section UnknownCategory.

Context {RT : Runtime}.

Lemma agree_but_set (k v : json) (d : list (json * json)) :
  agree_but k (dict_set d k v) d.
Proof.
  intros cat Hc. rewrite dict_find_set, Hc. reflexivity.
Qed.

Lemma fill_sections_agree (k : json) (items : list json) (d1 d2 : list (json * json)) :
  agree_but k d1 d2 ->
  match
    for_each
      (fun sections section =>
         category <- py_get section "category" (JStr "Unknown") ;;
         details <- py_get section "details" (JList []) ;;
         if py_hashable category then Ok (dict_set sections category details)
         else Raise TypeError)
      items d1,
    for_each
      (fun sections section =>
         category <- py_get section "category" (JStr "Unknown") ;;
         details <- py_get section "details" (JList []) ;;
         if py_hashable category then Ok (dict_set sections category details)
         else Raise TypeError)
      items d2
  with
  | Ok r1, Ok r2 => agree_but k r1 r2
  | Raise e1, Raise e2 => e1 = e2
  | _, _ => False
  end.
Proof.
  revert d1 d2. induction items as [|section rest IH]; intros d1 d2 H;
    cbn [for_each].
  - exact H.
  - destruct (py_get section "category" (JStr "Unknown")) as [category|e];
      cbn [bind]; [|reflexivity].
    destruct (py_get section "details" (JList [])) as [details|e];
      cbn [bind]; [|reflexivity].
    destruct (py_hashable category); cbn [bind]; [|reflexivity].
    apply IH. intros cat Hc. rewrite !dict_find_set.
    destruct (py_eq_str category cat); [reflexivity|]. now apply H.
Qed.

Lemma unknown_not_known (entries : list (string * json)) (cat : string) :
  unknown_section (JDict entries) = true ->
  In cat known_categories ->
  py_eq_str (field entries "category" (JStr "Unknown")) cat = false.
Proof.
  unfold unknown_section, field.
  destruct (dict_lookup "category" entries) as [category|].
  - intros H Hc. apply andb_true_iff in H. destruct H as [_ H].
    apply negb_true_iff in H. unfold py_in_strs in H.
    destruct (py_eq_str category cat) eqn:E; [|reflexivity].
    assert (X : existsb (py_eq_str category) known_categories = true)
      by (apply existsb_exists; eauto).
    congruence.
  - intros _ Hc. simpl in Hc.
    repeat (destruct Hc as [<-|Hc]; [reflexivity|]). contradiction.
Qed.

Lemma unknown_not_flat (entries : list (string * json)) :
  unknown_section (JDict entries) = true ->
  py_in_strs (field entries "category" (JStr "")) flat_categories = false.
Proof.
  unfold unknown_section, field.
  destruct (dict_lookup "category" entries) as [category|]; [|reflexivity].
  intros H. apply andb_true_iff in H. destruct H as [_ H].
  apply negb_true_iff in H. unfold py_in_strs, known_categories, flat_categories in *.
  cbn [existsb] in *.
  repeat (apply orb_false_iff in H; destruct H as [? H]).
  repeat (apply orb_false_iff; split; auto).
Qed.

Lemma unknown_hashable (entries : list (string * json)) :
  unknown_section (JDict entries) = true ->
  py_hashable (field entries "category" (JStr "Unknown")) = true.
Proof.
  unfold unknown_section, field.
  destruct (dict_lookup "category" entries) as [category|]; [|reflexivity].
  intros H. apply andb_true_iff in H. tauto.
Qed.

Lemma extract_sections_without (pre post : list json) (entries : list (string * json)) :
  unknown_section (JDict entries) = true ->
  match extract_sections (JList (pre ++ JDict entries :: post)),
        extract_sections (JList (pre ++ post)) with
  | Ok r1, Ok r2 =>
      forall cat, In cat known_categories -> dict_find r1 cat = dict_find r2 cat
  | Raise e1, Raise e2 => e1 = e2
  | _, _ => False
  end.
Proof.
  intros U. unfold extract_sections. cbn [py_iter bind].
  rewrite !for_each_app.
  destruct (for_each _ pre []) as [acc|e]; cbn [bind]; [|reflexivity].
  cbn [for_each]. rewrite !py_get_field. cbn [bind].
  rewrite (unknown_hashable _ U). cbn [bind].
  pose proof (fill_sections_agree (field entries "category" (JStr "Unknown")) post
                _ _ (agree_but_set _ (field entries "details" (JList [])) acc)) as A.
  destruct (for_each _ post (dict_set _ _ _)) as [r1|e1];
    destruct (for_each _ post acc) as [r2|e2]; try exact A.
  intros cat Hc. apply A. now apply unknown_not_known.
Qed.

Lemma collect_all_items_without (pre post : list json) (entries : list (string * json)) :
  unknown_section (JDict entries) = true ->
  collect_all_items (JList (pre ++ JDict entries :: post))
  = collect_all_items (JList (pre ++ post)).
Proof.
  intros U. unfold collect_all_items. cbn [py_iter bind].
  rewrite !for_each_app.
  destruct (for_each _ pre []) as [acc|e]; cbn [bind]; [|reflexivity].
  cbn [for_each]. rewrite py_get_field. cbn [bind].
  rewrite (unknown_not_flat _ U). reflexivity.
Qed.

(** C2 as the code has it.  A section of no known category leaves no
    trace: the outcome of the assembler, report or exception, is the one
    for the document without that section.  Its records are in neither
    the summary table nor any other part of the report. *)
Theorem unknown_section_ignored
        (now : string) (pre post : list json) (section : json)
        (xml_root : option element) :
  unknown_section section = true ->
  generate_html_report now (JList (pre ++ section :: post)) xml_root
  = generate_html_report now (JList (pre ++ post)) xml_root
  /\ collect_all_items (JList (pre ++ section :: post))
     = collect_all_items (JList (pre ++ post)).
Proof.
  intros U. destruct section as [| | | | |entries]; try discriminate.
  split; [|now apply collect_all_items_without].
  rewrite !report_equation.
  pose proof (extract_sections_without pre post entries U) as A.
  destruct (extract_sections (JList (pre ++ JDict entries :: post))) as [s1|e1];
    destruct (extract_sections (JList (pre ++ post))) as [s2|e2];
    cbn [bind]; try contradiction; [|now subst].
  destruct (report_reads_known s1 s2 xml_root A) as (Ha & Ht & Hk).
  unfold generate_summary_table.
  rewrite (collect_all_items_without pre post entries U).
  rewrite Ha, Ht.
  rewrite !Hk by (unfold canonical_sections; simpl; tauto).
  reflexivity.
Qed.

End UnknownCategory.

(** ** Escaping in the cards *)

Lemma count_char_app (c : ascii) (a b : string) :
  count_char c (a ++ b) = count_char c a + count_char c b.
Proof.
  induction a as [|x a IH]; simpl.
  - reflexivity.
  - rewrite IH. lia.
Qed.

Lemma count_char_escape_char (c a : ascii) :
  In c markup_chars -> count_char c (escape_char a) = 0.
Proof.
  intros Hc. unfold escape_char.
  destruct (Ascii.eqb_spec a "&"%char) as [->|_].
  { simpl in Hc. decompose [or] Hc; subst; try reflexivity; contradiction. }
  destruct (Ascii.eqb_spec a "<"%char) as [->|N1].
  { simpl in Hc. decompose [or] Hc; subst; try reflexivity; contradiction. }
  destruct (Ascii.eqb_spec a ">"%char) as [->|N2].
  { simpl in Hc. decompose [or] Hc; subst; try reflexivity; contradiction. }
  destruct (Ascii.eqb_spec a dquote) as [->|N3].
  { simpl in Hc. decompose [or] Hc; subst; try reflexivity; contradiction. }
  destruct (Ascii.eqb_spec a "'"%char) as [->|N4].
  { simpl in Hc. decompose [or] Hc; subst; try reflexivity; contradiction. }
  cbn [count_char]. destruct (Ascii.eqb_spec a c) as [->|_]; [|reflexivity].
  simpl in Hc. decompose [or] Hc; subst; contradiction.
Qed.

Lemma replace_char_app (c : ascii) (by_text a b : string) :
  replace_char c by_text (a ++ b)
  = replace_char c by_text a ++ replace_char c by_text b.
Proof.
  induction a as [|x a IH]; simpl.
  - reflexivity.
  - now rewrite IH, append_assoc.
Qed.

Lemma escape_str_app (a b : string) :
  escape_str (a ++ b) = escape_str a ++ escape_str b.
Proof.
  unfold escape_str. now rewrite !replace_char_app.
Qed.

Lemma escape_str_char (a : ascii) :
  escape_str (String a "") = escape_char a.
Proof.
  unfold escape_str, escape_char. cbn [replace_char].
  destruct (Ascii.eqb_spec a "&"%char) as [->|N0]; [reflexivity|].
  cbn [append replace_char].
  destruct (Ascii.eqb_spec a "<"%char) as [->|N1]; [reflexivity|].
  cbn [append replace_char].
  destruct (Ascii.eqb_spec a ">"%char) as [->|N2]; [reflexivity|].
  cbn [append replace_char].
  destruct (Ascii.eqb_spec a dquote) as [->|N3]; [reflexivity|].
  cbn [append replace_char].
  destruct (Ascii.eqb_spec a "'"%char) as [->|N4]; reflexivity.
Qed.

(** The five replacements one after the other are one pass over the
    text: no replacement text holds a character that a later replacement
    looks for. *)
Lemma escape_str_one_pass (s : string) : escape_str s = escape_chars s.
Proof.
  induction s as [|a r IH].
  - reflexivity.
  - change (String a r) with (String a "" ++ r).
    rewrite escape_str_app, escape_str_char, IH. reflexivity.
Qed.

(** An escaped text holds no markup character. *)
Lemma count_char_escape_str (c : ascii) (s : string) :
  In c markup_chars -> count_char c (escape_str s) = 0.
Proof.
  intros Hc. rewrite escape_str_one_pass. induction s as [|a r IH]; simpl.
  - reflexivity.
  - now rewrite count_char_app, IH, count_char_escape_char.
Qed.

Lemma count_char_uint (c : ascii) (d : Decimal.uint) :
  In c markup_chars -> count_char c (NilEmpty.string_of_uint d) = 0.
Proof.
  intros Hc. induction d; simpl; try rewrite IHd; try reflexivity;
    simpl in Hc; decompose [or] Hc; subst; try reflexivity; contradiction.
Qed.

(** The decimal text of an integer holds no markup character. *)
Lemma count_char_str_of_Z (c : ascii) (z : Z) :
  In c markup_chars -> count_char c (str_of_Z z) = 0.
Proof.
  intros Hc. unfold str_of_Z, NilZero.string_of_int, NilZero.string_of_uint.
  assert (M : count_char c "-" = 0)
    by (simpl in Hc; decompose [or] Hc; subst; try reflexivity; contradiction).
  assert (Z0 : count_char c "0" = 0)
    by (simpl in Hc; decompose [or] Hc; subst; try reflexivity; contradiction).
  destruct (Z.to_int z) as [d|d].
  - destruct d; try exact Z0; now apply count_char_uint.
  - change (String "-" ?x) with ("-" ++ x).
    destruct d; rewrite ?count_char_app, ?M, ?Z0; try reflexivity;
      now rewrite count_char_uint.
Qed.

Section CardProperties.

Context {RT : Runtime}.

Lemma template_items_loop (templates : list string) (html : string) :
  for_each
    (fun html template =>
       t <- escape template ;;
       Ok (html ++ "<li>" ++ t ++ "</li>"))
    (map JStr templates) html
  = Ok (html ++ template_items templates).
Proof.
  unfold template_items.
  revert html. induction templates as [|t rest IH]; intros html.
  - simpl. now rewrite append_empty_r.
  - cbn [map for_each escape bind]. rewrite IH, concat_empty_cons.
    now rewrite !append_assoc.
Qed.

(** The card of a record without locator paths. *)
Lemma detail_card_record
      (description rule_id feature tag group location : string) (count : Z)
      (templates : list string) (xml_root : option element) (html : string) :
  detail_card xml_root html
              (record_of description rule_id feature tag group location count templates)
  = Ok (html ++ lit "
        <div class=`detail-card unsupported`>
            <div class=`detail-header`>
                <h4>" ++ escape_str description ++ lit "</h4>
                <span class=`badge badge-error`>Unsupported</span>
            </div>
            <div class=`detail-content`>
                <div class=`info-row`>
                    <span class=`label`>Rule ID:</span>
                    <span class=`value`>" ++ escape_str rule_id ++ lit "</span>
                </div>
                <div class=`info-row`>
                    <span class=`label`>Feature:</span>
                    <span class=`value`>" ++ escape_str feature ++ lit "</span>
                </div>
                <div class=`info-row`>
                    <span class=`label`>Tag:</span>
                    <span class=`value`>" ++ escape_str tag ++ lit "</span>
                </div>
                <div class=`info-row`>
                    <span class=`label`>Group:</span>
                    <span class=`value`>" ++ escape_str group ++ lit "</span>
                </div>
                <div class=`info-row`>
                    <span class=`label`>Count:</span>
                    <span class=`value count`>" ++ str_of_Z count ++ lit "</span>
                </div>
                <div class=`info-row`>
                    <span class=`label`>Location:</span>
                    <span class=`value`>" ++ escape_str location ++ "</span>
                </div>
        " ++ template_block templates ++ "</div></div>").
Proof.
  unfold detail_card, record_of.
  repeat (rewrite py_get_field; cbn [bind escape py_str field dict_lookup
                                     String.eqb Ascii.eqb Bool.eqb]).
  cbv zeta.
  destruct templates as [|t rest].
  - cbn [map py_truthy bind template_block].
    rewrite !append_assoc. reflexivity.
  - cbn [py_truthy map py_iter bind].
    change (JStr t :: map JStr rest) with (map JStr (t :: rest)).
    rewrite template_items_loop. cbn [bind py_truthy template_block].
    rewrite !append_assoc. reflexivity.
Qed.

End CardProperties.

Section PathProperties.

Context {RT : Runtime}.

(** Without a configuration tree, the list item of a kept path is the
    formatted path as it is. *)
Lemma xpath_item_kept (html path : string) :
  bare_path path = true ->
  xpath_item None html (JStr path)
  = Ok (html ++ lit "<li class=`xpath-item`>" ++ ("/" ++ strip slash path) ++ "</li>").
Proof.
  intros B. unfold xpath_item. rewrite (format_xpath_kept _ B).
  cbn [bind]. cbv zeta. cbn [bind]. now rewrite !append_assoc.
Qed.

Lemma detail_card_path (path : string) :
  bare_path path = true ->
  exists pre post,
    detail_card None "" (record_with_path path)
    = Ok (pre ++ ("/" ++ strip slash path) ++ post)
    /\ detail_card None "" (record_with_path "") = Ok (pre ++ "/" ++ post).
Proof.
  intros B.
  assert (E : forall p, bare_path p = true ->
                        detail_card None "" (record_with_path p)
                        = Ok ((lit "
        <div class=`detail-card unsupported`>
            <div class=`detail-header`>
                <h4>" ++ escape_str "N/A" ++ lit "</h4>
                <span class=`badge badge-error`>Unsupported</span>
            </div>
            <div class=`detail-content`>
                <div class=`info-row`>
                    <span class=`label`>Rule ID:</span>
                    <span class=`value`>" ++ escape_str "N/A" ++ lit "</span>
                </div>
                <div class=`info-row`>
                    <span class=`label`>Feature:</span>
                    <span class=`value`>" ++ escape_str "N/A" ++ lit "</span>
                </div>
                <div class=`info-row`>
                    <span class=`label`>Tag:</span>
                    <span class=`value`>" ++ escape_str "N/A" ++ lit "</span>
                </div>
                <div class=`info-row`>
                    <span class=`label`>Group:</span>
                    <span class=`value`>" ++ escape_str "N/A" ++ lit "</span>
                </div>
                <div class=`info-row`>
                    <span class=`label`>Count:</span>
                    <span class=`value count`>" ++ str_of_Z 0 ++ lit "</span>
                </div>
                <div class=`info-row`>
                    <span class=`label`>Location:</span>
                    <span class=`value`>" ++ escape_str "N/A" ++ "</span>
                </div>
        " ++ lit "<div class=`xpath-section`>" ++ "<h5>Configuration Paths:</h5>" ++ lit "<div class=`xpath-template`><strong>" ++ escape_str "t" ++ ":</strong></div>" ++ lit "<ul class=`xpath-list`>" ++ lit "<li class=`xpath-item`>")
                                ++ ("/" ++ strip slash p)
                                ++ ("</li>" ++ "</ul>" ++ "</div>" ++ "</div></div>"))).
  { intros p Bp. unfold detail_card, record_with_path.
    repeat (rewrite py_get_field; cbn [bind escape py_str field dict_lookup
                                       String.eqb Ascii.eqb Bool.eqb]).
    cbv zeta.
    cbn [py_truthy py_items bind for_each xpath_template py_iter].
    rewrite (xpath_item_kept _ _ Bp). cbn [bind].
    change ("" ++ ?x) with x.
    now rewrite !append_assoc. }
  eexists. eexists. split.
  - apply (E path B).
  - apply (E "" eq_refl).
Qed.

Lemma count_template_items (m : ascii) (templates : list string) :
  In m markup_chars ->
  count_char m (template_items templates)
  = count_char m (template_items (map (fun _ => "") templates)).
Proof.
  intros Hm. unfold template_items.
  induction templates as [|t rest IH]; [reflexivity|].
  cbn [map]. rewrite !concat_empty_cons, !count_char_app, IH.
  rewrite !count_char_escape_str by exact Hm. reflexivity.
Qed.

Lemma count_template_block (m : ascii) (templates : list string) :
  In m markup_chars ->
  count_char m (template_block templates)
  = count_char m (template_block (map (fun _ => "") templates)).
Proof.
  intros Hm. destruct templates as [|t rest]; [reflexivity|].
  cbn [map template_block]. rewrite !count_char_app.
  change ("" :: map (fun _ : string => "") rest)
    with (map (fun _ : string => "") (t :: rest)).
  now rewrite (count_template_items m (t :: rest) Hm).
Qed.

(** C9. In a card rendered without a configuration tree, a kept locator
    path stands in the markup as it is, between two texts that do not
    depend on it, so that every markup character of the path is in the
    output: the card has as many more of it than the card of the empty
    path as the stripped path holds.  The six text fields, the count and
    the names of the templates add none: the card has as many as the card
    of the record with empty fields and as many empty names. *)
Theorem locator_path_not_escaped
        (m : ascii) (path : string)
        (description rule_id feature tag group location : string) (count : Z)
        (templates : list string) (xml_root : option element) :
  In m markup_chars ->
  bare_path path = true ->
  (exists before after,
      detail_card None "" (record_with_path path)
      = Ok (before ++ ("/" ++ strip slash path) ++ after)
      /\ detail_card None "" (record_with_path "") = Ok (before ++ "/" ++ after)
      /\ count_char m (before ++ ("/" ++ strip slash path) ++ after)
         = count_char m (before ++ "/" ++ after) + count_char m (strip slash path))
  /\ (exists card blank,
        detail_card xml_root ""
                    (record_of description rule_id feature tag group location
                               count templates) = Ok card
        /\ detail_card xml_root ""
                       (record_of "" "" "" "" "" "" 0 (map (fun _ => "") templates))
           = Ok blank
        /\ count_char m card = count_char m blank).
Proof.
  intros Hm B. split.
  - destruct (detail_card_path path B) as (pre & post & E1 & E2).
    exists pre, post. repeat split; auto.
    rewrite !count_char_app. lia.
  - eexists. eexists. split; [apply detail_card_record|].
    split; [apply detail_card_record|].
    rewrite !count_char_app, !count_char_escape_str, !count_char_str_of_Z by exact Hm.
    rewrite (count_template_block m templates Hm). reflexivity.
Qed.

End PathProperties.

(** ** The empty flat sections *)

Section EmptyStates.

Context {RT : Runtime}.

(** C3 as the code has it.  On details that are empty, each of the three
    renderers gives a message of its own: the features and the flags
    renderers a neutral one, each with its own wording, and the blocking
    renderer a success one.  On any other details, the flags and the
    blocking renderers give what the features renderer gives. *)
Theorem empty_state_messages (details : json) (xml_root : option element) :
  if py_truthy details then
    generate_unsupported_flags_section details xml_root
    = generate_unsupported_features_section details xml_root
    /\ generate_blocking_features_section details xml_root
       = generate_unsupported_features_section details xml_root
  else
    generate_unsupported_features_section details xml_root
    = Ok (lit "<p class=`no-issues`>No unsupported features found.</p>")
    /\ generate_unsupported_flags_section details xml_root
       = Ok (lit "<p class=`no-issues`>No unsupported flags found.</p>")
    /\ generate_blocking_features_section details xml_root
       = Ok (lit "<p class=`success`>No blocking features found.</p>")
    /\ generate_unsupported_flags_section details xml_root
       <> generate_unsupported_features_section details xml_root
    /\ generate_blocking_features_section details xml_root
       <> generate_unsupported_features_section details xml_root
    /\ generate_blocking_features_section details xml_root
       <> generate_unsupported_flags_section details xml_root.
Proof.
  unfold generate_unsupported_flags_section, generate_blocking_features_section.
  destruct (py_truthy details) eqn:T; cbn [negb].
  - split; reflexivity.
  - unfold generate_unsupported_features_section. rewrite T. cbn [negb].
    repeat split; try reflexivity; intros E; inversion E.
Qed.

End EmptyStates.


(** * Further properties *)

(** ** Locator paths that are joined, empty or unresolved *)

Lemma split_app_slash (p q : string) :
  split slash (p ++ String slash q) = (split slash p ++ split slash q)%list.
Proof.
  induction p as [|a r IH]; cbn [append split].
  - rewrite Ascii.eqb_refl. reflexivity.
  - rewrite IH. destruct (Ascii.eqb a slash); [reflexivity|].
    pose proof (split_not_nil slash r) as Hn.
    destruct (split slash r) as [|h t]; [contradiction|reflexivity].
Qed.

Lemma segments_app (p q : string) :
  segments (p ++ String slash q) = (segments p ++ segments q)%list.
Proof.
  unfold segments. now rewrite split_app_slash, filter_app.
Qed.

Lemma walk_parts_app (xs ys : list string) (current : element) :
  walk_parts (xs ++ ys) current
  = match walk_parts xs current with
    | Some mid => walk_parts ys mid
    | None => None
    end.
Proof.
  revert current. induction xs as [|part rest IH]; intros current.
  - reflexivity.
  - cbn [app walk_parts].
    destruct (contains entry_marker part).
    + destruct (re_search_entry part); [|reflexivity].
      destruct (scan_children _ _ _) as [current' found].
      destruct found; cbn [negb]; [apply IH|reflexivity].
    + destruct (scan_children _ _ _) as [current' found].
      destruct found; cbn [negb]; [apply IH|reflexivity].
Qed.

Lemma segments_only_slashes (path : string) :
  only_slashes path = true -> segments path = [].
Proof.
  unfold only_slashes, segments.
  induction path as [|a r IH]; cbn [lstrip split].
  - reflexivity.
  - destruct (Ascii.eqb a slash); [|discriminate].
    intros H. cbn [filter nonempty]. now apply IH.
Qed.

Section MorePathProperties.

Context {RT : Runtime}.

(** X1. Resolving [p/q] from a node is resolving [q] from the node that
    [p] resolves to, and gives nothing when [p] does not resolve. *)
Theorem extract_xml_joined_path (root : element) (p q : string) :
  extract_xml_from_xpath (Some root) (JStr (p ++ String slash q))
  = match walk_parts (segments p) root with
    | Some mid => extract_xml_from_xpath (Some mid) (JStr q)
    | None => Ok None
    end.
Proof.
  unfold extract_xml_from_xpath, extract_xml_try.
  cbn [py_split bind].
  change (filter nonempty (split slash ?s)) with (segments s).
  rewrite segments_app, walk_parts_app.
  destruct (walk_parts (segments p) root); reflexivity.
Qed.

(** X2. A path with no segment, empty or made of slashes, resolves to the
    root: the whole configuration tree is what the caller gets. *)
Theorem extract_xml_empty_path (root : element) (path : string) :
  only_slashes path = true ->
  extract_xml_from_xpath (Some root) (JStr path)
  = match ET_tostring root with
    | Ok text => Ok (Some text)
    | Raise _ => Ok None
    end.
Proof.
  intros H. unfold extract_xml_from_xpath, extract_xml_try.
  cbn [py_split bind].
  change (filter nonempty (split slash path)) with (segments path).
  rewrite (segments_only_slashes _ H). cbn [walk_parts].
  destruct (ET_tostring root); reflexivity.
Qed.

Lemma bind_ext {A B : Type} (r : result A) (k1 k2 : A -> result B) :
  (forall a, r = Ok a -> k1 a = k2 a) -> bind r k1 = bind r k2.
Proof.
  intros H. destruct r; cbn [bind]; auto.
Qed.

Lemma for_each_ext {A S : Type} (f g : S -> A -> result S) (xs : list A) (acc : S) :
  Forall (fun x => forall s, f s x = g s x) xs ->
  for_each f xs acc = for_each g xs acc.
Proof.
  intros H. revert acc. induction H as [|x xs Hx _ IH]; intros acc.
  - reflexivity.
  - cbn [for_each]. rewrite Hx. apply bind_ext. intros a _. apply IH.
Qed.

Lemma xpath_item_unresolved (root : element) (html : string) (xpath : json) :
  extract_xml_from_xpath (Some root) xpath = Ok None ->
  xpath_item (Some root) html xpath = xpath_item None html xpath.
Proof.
  intros H. unfold xpath_item. rewrite H. reflexivity.
Qed.

Lemma xpath_template_unresolved (root : element) (html : string)
      (entry : string * json) :
  Forall (fun xpath => extract_xml_from_xpath (Some root) xpath = Ok None)
         match py_iter (snd entry) with
         | Ok xpaths => xpaths
         | Raise _ => []
         end ->
  xpath_template (Some root) html entry = xpath_template None html entry.
Proof.
  destruct entry as [template xpaths]. cbn [snd]. intros H.
  unfold xpath_template. cbv zeta.
  destruct (py_iter xpaths) as [items|e]; cbn [bind]; [|reflexivity].
  rewrite (for_each_ext (xpath_item (Some root)) (xpath_item None)).
  - reflexivity.
  - eapply Forall_impl; [|exact H].
    intros xpath Hx s. now apply xpath_item_unresolved.
Qed.

Lemma detail_card_unresolved (root : element) (html : string) (item : json) :
  Forall (fun xpath => extract_xml_from_xpath (Some root) xpath = Ok None)
         (record_paths item) ->
  detail_card (Some root) html item = detail_card None html item.
Proof.
  intros H. unfold detail_card.
  destruct item as [| | | | |entries].
  1-5: cbn [py_get bind]; reflexivity.
  rewrite !py_get_field. cbn [bind]. cbv zeta.
  do 8 (apply bind_ext; intros ? _).
  unfold record_paths in H.
  destruct (field entries "referenced-in-with-xpaths" (JDict []))
    as [| | | | |refs]; try reflexivity.
  rewrite py_get_field. cbn [bind].
  destruct (field refs "templates" JNull) as [|b|z|s|items|templates];
    try reflexivity.
  destruct (py_truthy (JDict templates)); [|reflexivity].
  cbn [py_items bind].
  rewrite (for_each_ext (xpath_template (Some root)) (xpath_template None)).
  - reflexivity.
  - apply Forall_flat_map in H.
    eapply Forall_impl; [|exact H].
    intros entry He s. now apply xpath_template_unresolved.
Qed.

Lemma flat_section_unresolved_sections (root : element) (details : json) :
  Forall (fun xpath => extract_xml_from_xpath (Some root) xpath = Ok None)
         (section_paths details) ->
  generate_unsupported_features_section details (Some root)
  = generate_unsupported_features_section details None
  /\ generate_unsupported_flags_section details (Some root)
     = generate_unsupported_flags_section details None
  /\ generate_blocking_features_section details (Some root)
     = generate_blocking_features_section details None.
Proof.
  intros H.
  assert (E : generate_unsupported_features_section details (Some root)
              = generate_unsupported_features_section details None).
  { unfold generate_unsupported_features_section.
    destruct (negb (py_truthy details)); [reflexivity|].
    cbv zeta. unfold section_paths in H.
    destruct (py_iter details) as [items|e]; cbn [bind]; [|reflexivity].
    rewrite (for_each_ext (detail_card (Some root)) (detail_card None)).
    - reflexivity.
    - apply Forall_flat_map in H.
      eapply Forall_impl; [|exact H].
      intros item Hi s. now apply detail_card_unresolved. }
  unfold generate_unsupported_flags_section, generate_blocking_features_section.
  rewrite E. repeat split; reflexivity.
Qed.

(** X3. When none of the locator paths of the records of a flat section
    resolves in the configuration tree, each of the three renderers gives
    what it gives without a tree: no configuration block, and nothing
    else changed. *)
Theorem flat_section_unresolved (root : element) (details : json) :
  Forall (fun xpath => extract_xml_from_xpath (Some root) xpath = Ok None)
         (section_paths details) ->
  generate_unsupported_features_section details (Some root)
  = generate_unsupported_features_section details None
  /\ generate_unsupported_flags_section details (Some root)
     = generate_unsupported_flags_section details None
  /\ generate_blocking_features_section details (Some root)
     = generate_blocking_features_section details None.
Proof.
  exact (flat_section_unresolved_sections root details).
Qed.

End MorePathProperties.


(** ** The path formatter applied twice, and the slashes it keeps *)

Lemma split_slash_free (sep : ascii) (s : string) :
  Forall (fun p => count_char sep p = 0) (split sep s).
Proof.
  induction s as [|a r IH]; cbn [split].
  - repeat constructor.
  - destruct (Ascii.eqb a sep) eqn:E.
    + constructor; [reflexivity|exact IH].
    + destruct (split sep r) as [|h t]; [repeat constructor; cbn; now rewrite E|].
      inversion IH; subst. constructor; [|assumption].
      cbn [count_char]. rewrite E. assumption.
Qed.

Lemma length_split (sep : ascii) (s : string) :
  List.length (split sep s) = S (count_char sep s).
Proof.
  induction s as [|a r IH]; cbn [split count_char].
  - reflexivity.
  - destruct (Ascii.eqb a sep).
    + cbn [List.length]. now rewrite IH.
    + destruct (split sep r) as [|h t]; cbn [List.length] in *; lia.
Qed.

Lemma split_one (sep : ascii) (s : string) :
  count_char sep s = 0 -> split sep s = [s].
Proof.
  induction s as [|a r IH]; cbn [split count_char].
  - reflexivity.
  - destruct (Ascii.eqb a sep); [discriminate|].
    intros H. now rewrite (IH H).
Qed.

Lemma count_join (parts : list string) :
  Forall (fun p => count_char slash p = 0) parts ->
  count_char slash (join "/" parts) = pred (List.length parts).
Proof.
  induction 1 as [|p rest Hp Hrest IH]; [reflexivity|].
  destruct rest as [|q rest].
  - exact Hp.
  - change (join "/" (p :: q :: rest)) with (p ++ "/" ++ join "/" (q :: rest)).
    rewrite !count_char_app, Hp, IH. reflexivity.
Qed.

Lemma split_join (parts : list string) :
  Forall (fun p => count_char slash p = 0) parts ->
  parts <> [] ->
  split slash (join "/" parts) = parts.
Proof.
  induction 1 as [|p rest Hp Hrest IH]; [contradiction|]. intros _.
  destruct rest as [|q rest].
  - now apply split_one.
  - change (join "/" (p :: q :: rest))
      with (p ++ String slash (join "/" (q :: rest))).
    rewrite split_app_slash, (split_one _ _ Hp), IH by discriminate.
    reflexivity.
Qed.

(** What the pattern takes out of a segment. *)

Lemma strip_prefix_app (p s r : string) :
  strip_prefix p s = Some r -> s = p ++ r.
Proof.
  revert s. induction p as [|a p IH]; intros s; cbn [strip_prefix].
  - intros E. now inversion E.
  - destruct s as [|b s]; [discriminate|].
    destruct (Ascii.eqb_spec a b) as [->|]; [|discriminate].
    intros E. cbn [append]. now rewrite (IH _ E).
Qed.

Lemma span_unquoted_app (s v rest : string) :
  span_unquoted s = (v, rest) -> s = v ++ rest /\ count_char dquote v = 0.
Proof.
  revert v rest. induction s as [|c r IH]; intros v rest; cbn [span_unquoted].
  - intros E. inversion E. split; reflexivity.
  - destruct (Ascii.eqb c dquote) eqn:Q.
    + intros E. inversion E. split; reflexivity.
    + destruct (span_unquoted r) as [v' rest'].
      intros E. inversion E; subst.
      destruct (IH v' rest eq_refl) as [-> Hq].
      split; [reflexivity|]. cbn [count_char]. now rewrite Q.
Qed.

Lemma re_match_entry_value (s v : string) :
  re_match_entry s = Some v ->
  v <> "" /\ count_char dquote v = 0
  /\ exists rest, s = (entry_marker ++ String dquote "") ++ v ++ rest.
Proof.
  unfold re_match_entry.
  destruct (strip_prefix _ s) as [after|] eqn:P; [|discriminate].
  destruct (span_unquoted after) as [v' rest] eqn:Sp.
  destruct (nonempty v' && String.prefix (String dquote "]") rest) eqn:C;
    [|discriminate].
  intros E. inversion E; subst v'.
  apply andb_true_iff in C. destruct C as [Hn _].
  apply strip_prefix_app in P. apply span_unquoted_app in Sp.
  destruct Sp as [-> Hq].
  repeat split.
  - intros ->. discriminate.
  - exact Hq.
  - now exists rest.
Qed.

Lemma re_search_entry_value (s v : string) :
  re_search_entry s = Some v ->
  v <> "" /\ count_char dquote v = 0
  /\ exists before rest,
       s = before ++ (entry_marker ++ String dquote "") ++ v ++ rest.
Proof.
  induction s as [|a r IH]; cbn [re_search_entry].
  - destruct (re_match_entry "") eqn:M; [|discriminate].
    intros E. inversion E; subst.
    destruct (re_match_entry_value _ _ M) as (? & ? & rest & ?).
    repeat split; auto. now exists "", rest.
  - destruct (re_match_entry (String a r)) eqn:M.
    + intros E. inversion E; subst.
      destruct (re_match_entry_value _ _ M) as (? & ? & rest & ?).
      repeat split; auto. now exists "", rest.
    + intros E. destruct (IH E) as (? & ? & before & rest & ->).
      repeat split; auto. now exists (String a before), rest.
Qed.

Lemma re_search_entry_unquoted (s : string) :
  count_char dquote s = 0 -> re_search_entry s = None.
Proof.
  intros H. destruct (re_search_entry s) as [v|] eqn:E; [|reflexivity].
  apply re_search_entry_value in E.
  destruct E as (_ & _ & before & rest & ->).
  rewrite !count_char_app in H. cbn in H. lia.
Qed.

Lemma format_part_count (c : ascii) (part : string) :
  count_char c (format_part part) <= count_char c part.
Proof.
  unfold format_part. destruct (contains entry_marker part); [|lia].
  destruct (re_search_entry part) as [v|] eqn:E; [|lia].
  apply re_search_entry_value in E.
  destruct E as (_ & _ & before & rest & ->).
  rewrite !count_char_app. lia.
Qed.

Lemma format_part_twice (part : string) :
  format_part (format_part part) = format_part part.
Proof.
  unfold format_part at 2 3. destruct (contains entry_marker part) eqn:C.
  - destruct (re_search_entry part) as [v|] eqn:E.
    + apply re_search_entry_value in E. destruct E as (_ & Hq & _).
      unfold format_part. rewrite (re_search_entry_unquoted _ Hq).
      destruct (contains entry_marker v); reflexivity.
    + unfold format_part. now rewrite C, E.
  - unfold format_part. now rewrite C.
Qed.

Lemma format_part_empty (part : string) :
  format_part part = "" -> part = "".
Proof.
  unfold format_part. destruct (contains entry_marker part); [|auto].
  destruct (re_search_entry part) as [v|] eqn:E; [|auto].
  apply re_search_entry_value in E. destruct E as (Hn & _). intros ->.
  contradiction.
Qed.

Lemma formatted_slash_free (parts : list string) :
  Forall (fun p => count_char slash p = 0) parts ->
  Forall (fun p => count_char slash p = 0) (map format_part parts).
Proof.
  induction 1 as [|p rest Hp _ IH]; cbn [map]; constructor; [|exact IH].
  pose proof (format_part_count slash p). lia.
Qed.

(** X4. The formatter keeps the segments apart: its output has one slash
    more than the path with its outer slashes stripped, whatever the
    predicates are replaced by. *)
Theorem format_xpath_keeps_slashes (path : string) :
  exists out,
    format_xpath (JStr path) = Ok out
    /\ count_char slash out = S (count_char slash (strip slash path)).
Proof.
  eexists. split; [apply format_xpath_total|].
  change ("/" ++ ?x) with (String slash x). cbn [count_char].
  rewrite Ascii.eqb_refl.
  rewrite count_join by apply formatted_slash_free, split_slash_free.
  rewrite length_map, length_split. reflexivity.
Qed.

(** Stripping *)

Lemma lstrip_fixed (c : ascii) (s : string) :
  head_is c s = false -> lstrip c s = s.
Proof.
  destruct s as [|a r]; cbn [head_is lstrip]; [reflexivity|].
  now intros ->.
Qed.

Lemma rstrip_fixed (c : ascii) (s : string) :
  last_is c s = false -> rstrip c s = s.
Proof.
  induction s as [|a r IH]; [reflexivity|].
  destruct r as [|b r'].
  - cbn. now intros ->.
  - intros H. change (last_is c (String a (String b r')))
      with (last_is c (String b r')) in H.
    cbn [rstrip] in *. rewrite (IH H). reflexivity.
Qed.

Lemma head_lstrip (c : ascii) (s : string) : head_is c (lstrip c s) = false.
Proof.
  induction s as [|a r IH]; cbn [lstrip]; [reflexivity|].
  destruct (Ascii.eqb a c) eqn:E; [exact IH|]. cbn [head_is]. exact E.
Qed.

Lemma last_rstrip (c : ascii) (s : string) : last_is c (rstrip c s) = false.
Proof.
  induction s as [|a r IH]; [reflexivity|]. cbn [rstrip].
  destruct (rstrip c r) as [|b r'].
  - destruct (Ascii.eqb a c) eqn:E; [reflexivity|]. cbn. exact E.
  - exact IH.
Qed.

Lemma head_rstrip (c : ascii) (s : string) :
  head_is c s = false -> head_is c (rstrip c s) = false.
Proof.
  destruct s as [|a r]; [reflexivity|]. cbn [head_is rstrip]. intros E.
  destruct (rstrip c r); [rewrite E|]; cbn [head_is]; auto.
Qed.

Lemma head_count (c : ascii) (s : string) :
  head_is c s = true -> 0 < count_char c s.
Proof.
  destruct s as [|a r]; cbn [head_is count_char]; [discriminate|].
  intros ->. lia.
Qed.

Lemma last_count (c : ascii) (s : string) :
  last_is c s = true -> 0 < count_char c s.
Proof.
  induction s as [|a r IH]; [discriminate|].
  destruct r as [|b r'].
  - cbn. intros ->. lia.
  - intros H. change (last_is c (String a (String b r')))
      with (last_is c (String b r')) in H.
    apply IH in H. cbn [count_char] in *. lia.
Qed.

Lemma last_is_app (c : ascii) (a b : string) :
  last_is c (a ++ b) = if nonempty b then last_is c b else last_is c a.
Proof.
  induction a as [|x a IH].
  - cbn [append]. destruct b; reflexivity.
  - destruct b as [|y b].
    + now rewrite append_empty_r.
    + cbn [nonempty] in *. cbn [append].
      destruct (a ++ String y b) eqn:E.
      * destruct a; discriminate.
      * exact IH.
Qed.

Lemma split_head_empty (s : string) (rest : list string) :
  split slash s = "" :: rest -> s = "" \/ head_is slash s = true.
Proof.
  destruct s as [|a r]; [now left|]. cbn [split head_is].
  destruct (Ascii.eqb a slash); [now right|].
  destruct (split slash r); discriminate.
Qed.

Lemma split_last_empty (s : string) :
  List.last (split slash s) "x" = "" -> s = "" \/ last_is slash s = true.
Proof.
  induction s as [|a r IH]; [now left|]. intros H. right.
  cbn [split] in H.
  pose proof (split_not_nil slash r) as Hn.
  destruct (Ascii.eqb a slash) eqn:E.
  - destruct (split slash r) as [|h t] eqn:S; [contradiction|].
    change (List.last ("" :: h :: t) "x") with (List.last (h :: t) "x") in H.
    destruct (IH H) as [->|L].
    + cbn. exact E.
    + destruct r; [discriminate|exact L].
  - destruct (split slash r) as [|h t] eqn:S; [contradiction|].
    destruct t as [|h' t'].
    + discriminate.
    + change (List.last (String a h :: h' :: t') "x")
        with (List.last (h :: h' :: t') "x") in H.
      destruct (IH H) as [->|L]; [discriminate|].
      destruct r; [discriminate|exact L].
Qed.

Lemma join_head (parts : list string) :
  Forall (fun p => count_char slash p = 0) parts ->
  head_is slash (join "/" parts) = true ->
  exists rest, parts = "" :: rest.
Proof.
  intros F H. destruct F as [|p rest Hp Hrest]; [discriminate|].
  destruct p as [|a p]; [now exists rest|].
  exfalso.
  assert (Ha : head_is slash (String a p) = true).
  { destruct rest; exact H. }
  apply head_count in Ha. lia.
Qed.

Lemma join_last (parts : list string) :
  Forall (fun p => count_char slash p = 0) parts ->
  last_is slash (join "/" parts) = true ->
  List.last parts "x" = "".
Proof.
  induction 1 as [|p rest Hp Hrest IH]; [discriminate|].
  destruct rest as [|q rest].
  - intros H. apply last_count in H. cbn [join] in H. lia.
  - change (join "/" (p :: q :: rest)) with (p ++ "/" ++ join "/" (q :: rest)).
    change (List.last (p :: q :: rest) "x") with (List.last (q :: rest) "x").
    rewrite last_is_app. cbn [append nonempty].
    change (String "/" (join "/" (q :: rest)))
      with ("/" ++ join "/" (q :: rest)).
    rewrite last_is_app.
    destruct (nonempty (join "/" (q :: rest))) eqn:N; [exact IH|].
    intros _. destruct rest as [|q' rest].
    + cbn [join] in N. destruct q; [reflexivity|discriminate].
    + change (join "/" (q :: q' :: rest))
        with (q ++ "/" ++ join "/" (q' :: rest)) in N.
      destruct q; discriminate.
Qed.

Lemma last_map_format (parts : list string) :
  List.last (map format_part parts) "x" = format_part (List.last parts "x").
Proof.
  induction parts as [|p rest IH]; [reflexivity|].
  destruct rest as [|q rest]; [reflexivity|].
  exact IH.
Qed.

Lemma strip_of_strip_ends (path : string) :
  head_is slash (strip slash path) = false
  /\ last_is slash (strip slash path) = false.
Proof.
  unfold strip. split.
  - apply head_rstrip, head_lstrip.
  - apply last_rstrip.
Qed.

(** The formatted path, without its first slash, is already stripped. *)
Lemma strip_formatted (path : string) :
  strip slash
        ("/" ++ join "/" (map format_part (split slash (strip slash path))))
  = join "/" (map format_part (split slash (strip slash path))).
Proof.
  destruct (strip_of_strip_ends path) as [Hh Hl].
  set (T := strip slash path) in *.
  assert (SF : Forall (fun p => count_char slash p = 0)
                      (map format_part (split slash T)))
    by apply formatted_slash_free, split_slash_free.
  assert (Empty : T = "" ->
                  join "/" (map format_part (split slash T)) = "")
    by (intros ->; reflexivity).
  unfold strip at 1. change ("/" ++ ?x) with (String slash x).
  cbn [lstrip]. rewrite Ascii.eqb_refl.
  destruct (head_is slash (join "/" (map format_part (split slash T)))) eqn:H.
  { destruct (join_head _ SF H) as [rest E].
    destruct (split slash T) as [|p ps] eqn:S; [discriminate|].
    cbn [map] in E. inversion E as [[E1 E2]].
    apply format_part_empty in E1. subst p.
    destruct (split_head_empty _ _ S) as [T0|T1]; [|congruence].
    rewrite (Empty T0) in H. discriminate. }
  rewrite (lstrip_fixed _ _ H).
  destruct (last_is slash (join "/" (map format_part (split slash T)))) eqn:L.
  { pose proof (join_last _ SF L) as E.
    rewrite last_map_format in E. apply format_part_empty in E.
    destruct (split_last_empty _ E) as [T0|T1]; [|congruence].
    rewrite (Empty T0) in L. discriminate. }
  apply rstrip_fixed. exact L.
Qed.

(** X5. Formatting is idempotent: the formatter returns on every path, and
    gives its own output back when it is applied to it. *)
Theorem format_xpath_idempotent (path : string) :
  exists out,
    format_xpath (JStr path) = Ok out
    /\ format_xpath (JStr out) = Ok out.
Proof.
  eexists. split; [apply format_xpath_total|].
  rewrite format_xpath_total, strip_formatted.
  rewrite split_join.
  - rewrite map_map. f_equal. f_equal. f_equal.
    apply map_ext. intros p. apply format_part_twice.
  - apply formatted_slash_free, split_slash_free.
  - pose proof (split_not_nil slash (strip slash path)) as Hn.
    destruct (split slash (strip slash path)); [contradiction|discriminate].
Qed.


(** ** The count of a record *)

Section CountProperties.

Context {RT : Runtime}.




End CountProperties.


(** ** The summary table inside a report *)

Lemma last_details_in (cat : string) (items : list json) (details : json) :
  last_details cat items = Some details ->
  exists entries,
    In (JDict entries) items
    /\ py_eq_str (field entries "category" (JStr "Unknown")) cat = true
    /\ details = field entries "details" (JList []).
Proof.
  induction items as [|section rest IH]; cbn [last_details]; [discriminate|].
  destruct (last_details cat rest) as [d|].
  - intros E. inversion E; subst d.
    destruct (IH eq_refl) as (entries & Hin & Hc & Hd).
    exists entries. repeat split; auto. now right.
  - destruct (filed_under cat section) eqn:F; [|discriminate].
    intros E. inversion E; subst details.
    destruct section as [| | | | |entries]; try discriminate.
    exists entries. repeat split; auto. now left.
Qed.

Lemma truthy_iter_nonempty (details : json) (items : list json) :
  py_truthy details = true -> py_iter details = Ok items -> items <> [].
Proof.
  destruct details as [| | |s|l|d]; cbn [py_truthy py_iter]; try discriminate.
  - destruct s; [discriminate|]. intros _ E. inversion E. discriminate.
  - destruct l; [discriminate|]. intros _ E. inversion E. discriminate.
  - destruct d; [discriminate|]. intros _ E. inversion E. discriminate.
Qed.

Lemma Forall2_in_left {A B : Type} (R : A -> B -> Prop) (xs : list A) (ys : list B)
      (x : A) :
  Forall2 R xs ys -> In x xs -> exists y, In y ys /\ R x y.
Proof.
  induction 1 as [|a b xs ys Hab _ IH]; [contradiction|].
  intros [<-|Hin].
  - exists b. split; [now left|exact Hab].
  - destruct (IH Hin) as (y & Hy & Hr). exists y. split; [now right|exact Hr].
Qed.

Lemma concat_nonempty {A : Type} (rows : list (list A)) (row : list A) :
  In row rows -> row <> [] -> concat rows <> [].
Proof.
  induction rows as [|r rest IH]; [contradiction|].
  intros [->|Hin] Hne; cbn [concat].
  - destruct row; [contradiction|discriminate].
  - intros E. apply app_eq_nil in E. destruct E as [_ E]. now apply IH.
Qed.

Lemma flat_not_unknown (cat : string) :
  In cat flat_categories -> cat <> "Unknown" /\ py_in_strs (JStr cat) flat_categories = true.
Proof.
  intros H. simpl in H.
  repeat (destruct H as [<-|H]; [split; [discriminate|reflexivity]|]).
  contradiction.
Qed.

Section SummaryInReport.

Context {RT : Runtime}.

Lemma rows_loop_prefix (items : list summary_item) (html out : string) :
  for_each (fun html item => row <- summary_row item ;; Ok (html ++ row))
           items html = Ok out ->
  exists rest, out = html ++ rest.
Proof.
  revert html. induction items as [|item rest IH]; intros html; cbn [for_each].
  - intros E. inversion E. exists "". now rewrite append_empty_r.
  - destruct (summary_row item) as [row|e]; cbn [bind]; [|discriminate].
    intros E. apply IH in E. destruct E as (r & ->).
    exists (row ++ r). now rewrite append_assoc.
Qed.

(** X7. When the summary section is in a report, the aggregator has at
    least one row and the section holds the table: the message for a
    configuration without issues is never what a report shows. *)
Theorem summary_in_report_has_rows
        (now : string) (data : json) (xml_root : option element) (out : string) :
  generate_html_report now data xml_root = Ok out ->
  flat_records (document_sections data) = true ->
  exists rows table,
    collect_all_items data = Ok rows
    /\ rows <> []
    /\ generate_summary_table data = Ok table
    /\ table <> lit "<p class=`no-issues`>No issues found in configuration.</p>".
Proof.
  intros Hout Hflat. apply report_shape in Hout.
  destruct Hout as (sections & summary & blocks & Es & Su & _ & _).
  rewrite Hflat in Su. unfold block in Su.
  destruct (generate_summary_table data) as [table|e] eqn:T; cbn [bind] in Su;
    [|discriminate].
  unfold generate_summary_table in T.
  destruct (collect_all_items data) as [rows|e] eqn:C; cbn [bind] in T;
    [|discriminate].
  assert (Hrows : rows <> []).
  { unfold flat_records in Hflat. apply existsb_exists in Hflat.
    destruct Hflat as (cat & Hcat & Hd).
    destruct (last_details cat (document_sections data)) as [details|] eqn:L;
      [|discriminate].
    destruct data as [| | | |items|]; try discriminate L.
    cbn [document_sections] in L.
    destruct (last_details_in _ _ _ L) as (entries & Hin & Hc & ->).
    unfold collect_all_items in C. cbn [py_iter bind] in C.
    apply collect_sections_inv in C. destruct C as (per & F & ->).
    destruct (Forall2_in_left _ _ _ _ F Hin) as (row & Hrow & Hsec).
    apply (concat_nonempty per row Hrow).
    destruct (flat_not_unknown cat Hcat) as [Hu Hf].
    apply py_eq_str_true in Hc.
    assert (Hcat' : field entries "category" (JStr "") = JStr cat).
    { unfold field in *. destruct (dict_lookup "category" entries); [exact Hc|].
      inversion Hc. congruence. }
    inversion Hsec as [section records Hflat' Hiter|section Hother]; subst.
    - apply (truthy_iter_nonempty _ _ Hd) in Hiter.
      destruct records; [contradiction|discriminate].
    - rewrite Hcat', Hf in Hother. discriminate. }
  exists rows, table. repeat split; auto.
  destruct rows as [|r rs]; [contradiction|].
  destruct (for_each _ (r :: rs) _) as [html|e] eqn:Fe; cbn [bind] in T;
    [|discriminate].
  apply rows_loop_prefix in Fe. destruct Fe as (rest & ->).
  inversion T; subst table.
  intros E.
  apply (f_equal (head_is "<"%char)) in E. vm_compute in E. discriminate E.
Qed.

End SummaryInReport.


(** ** The table of contents and the shape of the document *)

Section TocProperties.

Context {RT : Runtime}.




End TocProperties.


(** ** Inputs that make the program raise *)

Lemma for_each_ok {A S : Type} (f : S -> A -> result S) (xs : list A) (acc r : S) :
  for_each f xs acc = Ok r ->
  Forall (fun x => exists s s', f s x = Ok s') xs.
Proof.
  revert acc. induction xs as [|x xs IH]; intros acc; cbn [for_each].
  - constructor.
  - destruct (f acc x) as [acc'|e] eqn:E; cbn [bind]; [|discriminate].
    intros H. constructor; [eauto|]. exact (IH _ H).
Qed.

Section RaisingInputs.

Context {RT : Runtime}.

Lemma report_raises_with_sections (now : string) (data : json)
      (xml_root : option element) (e : exn) :
  extract_sections data = Raise e ->
  generate_html_report now data xml_root = Raise e.
Proof.
  intros H. rewrite report_equation, H. reflexivity.
Qed.

Lemma report_without_sections (now : string) (data : json)
      (xml_root : option element) :
  extract_sections data = Ok [] ->
  generate_html_report now data xml_root
  = generate_html_report now (JList []) xml_root.
Proof.
  intros H. rewrite !report_equation, H. reflexivity.
Qed.

(** X9. What the assembler makes of the shape of the document.  Null, a
    truth value or a number cannot be iterated over; a dictionary or a
    text that is not empty gives items without [get]; an empty one gives
    the report of the empty list; in a list from which a report is
    produced, every section is a dictionary whose category can be a key. *)
Theorem report_document_shape (now : string) (data : json)
        (xml_root : option element) :
  match data with
  | JNull | JBool _ | JInt _ =>
      generate_html_report now data xml_root = Raise TypeError
  | JStr EmptyString | JDict [] =>
      generate_html_report now data xml_root
      = generate_html_report now (JList []) xml_root
  | JStr (String _ _) | JDict (_ :: _) =>
      generate_html_report now data xml_root = Raise AttributeError
  | JList items =>
      forall out,
        generate_html_report now data xml_root = Ok out ->
        Forall section_ok items
  end.
Proof.
  destruct data as [|b|z|s|items|entries].
  - now apply report_raises_with_sections.
  - now apply report_raises_with_sections.
  - now apply report_raises_with_sections.
  - destruct s.
    + now apply report_without_sections.
    + now apply report_raises_with_sections.
  - intros out H. apply report_shape in H.
    destruct H as (sections & _ & _ & Es & _).
    unfold extract_sections in Es. cbn [py_iter bind] in Es.
    apply for_each_ok in Es.
    eapply Forall_impl; [|exact Es].
    intros section (s & s' & H). unfold section_ok.
    destruct section as [| | | | |fields]; try discriminate H.
    rewrite !py_get_field in H. cbn [bind] in H.
    exists fields. split; [reflexivity|].
    destruct (py_hashable _); [reflexivity|discriminate H].
  - destruct entries as [|[k v] rest].
    + now apply report_without_sections.
    + now apply report_raises_with_sections.
Qed.

Lemma detail_card_texts (xml_root : option element) (html out : string) (item : json) :
  detail_card xml_root html item = Ok out -> texts_ok item.
Proof.
  unfold detail_card, texts_ok, text_keys.
  destruct item as [| | | | |entries]; try discriminate.
  rewrite !py_get_field. cbn [bind]. intros H.
  exists entries. split; [reflexivity|].
  destruct (field entries "description" (JStr "N/A")) eqn:F1;
    try discriminate H; cbn [escape bind] in H.
  destruct (field entries "rule-id" (JStr "N/A")) eqn:F2;
    try discriminate H; cbn [escape bind] in H.
  destruct (field entries "feature" (JStr "N/A")) eqn:F3;
    try discriminate H; cbn [escape bind] in H.
  destruct (field entries "tag" (JStr "N/A")) eqn:F4;
    try discriminate H; cbn [escape bind] in H.
  destruct (field entries "group" (JStr "N/A")) eqn:F5;
    try discriminate H; cbn [escape bind] in H.
  destruct (field entries "location" (JStr "N/A")) eqn:F6;
    try discriminate H.
  repeat (constructor; [eauto|]). constructor.
Qed.

(** X10. A flat section is rendered only from records that are
    dictionaries in which every text field is missing or a text: a
    number, a null or a list in one of them makes the renderer raise. *)
Theorem flat_section_needs_texts (items : list json) (xml_root : option element)
        (out : string) :
  generate_unsupported_features_section (JList items) xml_root = Ok out ->
  Forall texts_ok items.
Proof.
  unfold generate_unsupported_features_section.
  destruct items as [|item rest]; [constructor|].
  cbn [py_truthy negb py_iter bind]. cbv zeta.
  destruct (for_each _ (item :: rest) _) as [html|e] eqn:E; [|discriminate].
  intros _. apply for_each_ok in E.
  eapply Forall_impl; [|exact E].
  intros x (s & s' & H). now apply detail_card_texts in H.
Qed.

End RaisingInputs.


(** ** Trees of device groups *)

Section GroupTreeProperties.

Context {RT : Runtime}.







End GroupTreeProperties.


(** ** The configuration summary and the templates *)

Section SummaryAndTemplates.

Context {RT : Runtime}.

Lemma config_items_loop (items : list (list (string * json))) (html : string) :
  for_each
    (fun html item =>
       desc <- (v <- py_get item "description" (JStr "N/A") ;;
                Ok (escape_str (py_str v))) ;;
       count <- (v <- py_get item "count" (JStr "N/A") ;;
                 Ok (escape_str (py_str v))) ;;
       Ok (html ++ lit "
        <div class=`summary-item`>
            <span class=`summary-label`>" ++ desc ++ lit ":</span>
            <span class=`summary-value`>" ++ count ++ "</span>
        </div>
        "))
    (map JDict items) html
  = Ok (html ++ String.concat "" (map summary_item_markup items)).
Proof.
  revert html. induction items as [|item rest IH]; intros html.
  - cbn. now rewrite append_empty_r.
  - cbn [map for_each]. rewrite !py_get_field. cbn [bind]. rewrite IH.
    rewrite concat_empty_cons. unfold summary_item_markup at 2.
    now rewrite !append_assoc.
Qed.

Lemma config_summary_of_items (items : list (list (string * json))) :
  generate_config_summary_section (JList (map JDict items))
  = Ok match items with
       | [] => "<p>No configuration summary available.</p>"
       | _ => lit "<div class=`summary-grid`>" ++ String.concat "" (map summary_item_markup items) ++ "</div>"
       end.
Proof.
  unfold generate_config_summary_section.
  destruct items as [|item rest]; [reflexivity|].
  change (py_truthy (JList (map JDict (item :: rest)))) with true.
  cbn [negb py_iter bind]. cbv zeta.
  rewrite config_items_loop. cbn [bind]. now rewrite append_assoc.
Qed.

Lemma count_summary_items (m : ascii) (items : list (list (string * json))) :
  In m markup_chars ->
  count_char m (String.concat "" (map summary_item_markup items))
  = count_char m (String.concat ""
                    (map summary_item_markup (map (fun _ => []) items))).
Proof.
  intros Hm. induction items as [|item rest IH]; [reflexivity|].
  cbn [map]. rewrite !concat_empty_cons, !count_char_app, IH.
  unfold summary_item_markup.
  rewrite !count_char_app, !count_char_escape_str by exact Hm. reflexivity.
Qed.

(** X12. The configuration summary is rendered from any list of
    dictionaries, whatever the values of the fields (it converts them to
    text before it escapes them), and no value adds a markup character:
    the section has as many as the section of as many empty items. *)
Theorem config_summary_total_and_escaped
        (m : ascii) (items : list (list (string * json))) :
  In m markup_chars ->
  exists out blank,
    generate_config_summary_section (JList (map JDict items)) = Ok out
    /\ generate_config_summary_section
         (JList (map JDict (map (fun _ => []) items))) = Ok blank
    /\ count_char m out = count_char m blank.
Proof.
  intros Hm. do 2 eexists.
  split; [apply config_summary_of_items|].
  split; [apply config_summary_of_items|].
  destruct items as [|item rest]; [reflexivity|].
  cbn [map]. rewrite !concat_empty_cons, !count_char_app.
  rewrite (count_summary_items m rest Hm).
  unfold summary_item_markup.
  rewrite !count_char_app, !count_char_escape_str by exact Hm. reflexivity.
Qed.

Lemma features_loop (features : list string) (html : string) :
  for_each
    (fun html feature => f <- escape feature ;; Ok (html ++ "<li>" ++ f ++ "</li>"))
    (map JStr features) html
  = Ok (html ++ String.concat ""
                  (map (fun f => "<li>" ++ escape_str f ++ "</li>") features)).
Proof.
  revert html. induction features as [|f rest IH]; intros html.
  - cbn. now rewrite append_empty_r.
  - cbn [map for_each escape bind]. rewrite IH, concat_empty_cons.
    now rewrite !append_assoc.
Qed.

Lemma feature_list_block (html title items_open : string) (features : list string) :
  feature_list html (JList (map JStr features)) title items_open
  = Ok (html ++ feature_block title items_open features).
Proof.
  unfold feature_list, feature_block.
  destruct features as [|f rest].
  - cbn. now rewrite append_empty_r.
  - change (py_truthy (JList (map JStr (f :: rest)))) with true.
    cbv zeta. cbn [py_iter bind]. rewrite features_loop. cbn [bind].
    now rewrite !append_assoc.
Qed.

Lemma template_cards_loop (templates : list (string * (list string * list string)))
      (html : string) :
  for_each
    (fun html (entry : string * json) =>
       let (template_name, template_data) := entry in
       let html := html ++ lit "
        <div class=`template-card`>
            <h4 class=`template-name`>" ++ escape_str template_name ++ "</h4>
        " in
       unsupported <- py_get template_data "unsupported-drop" (JList []) ;;
       html <- feature_list html unsupported
                 (lit "<h5 class=`section-title unsupported-title`>Unsupported Features:</h5>")
                 (lit "<ul class=`feature-list unsupported-list`>") ;;
       supported <- py_get template_data "supported-drop" (JList []) ;;
       html <- feature_list html supported
                 (lit "<h5 class=`section-title supported-title`>Supported but Dropped:</h5>")
                 (lit "<ul class=`feature-list supported-list`>") ;;
       Ok (html ++ "</div>"))
    (map template_json templates) html
  = Ok (html ++ String.concat "" (map template_card templates)).
Proof.
  revert html. induction templates as [|[name [us ss]] rest IH]; intros html.
  - cbn. now rewrite append_empty_r.
  - cbn [map for_each template_json fst snd]. cbv zeta.
    rewrite py_get_field.
    cbn [bind field dict_lookup String.eqb Ascii.eqb Bool.eqb].
    rewrite feature_list_block. cbn [bind].
    rewrite py_get_field.
    cbn [bind field dict_lookup String.eqb Ascii.eqb Bool.eqb].
    rewrite feature_list_block. cbn [bind].
    rewrite IH, concat_empty_cons. unfold template_card at 2. cbn [fst snd].
    now rewrite !append_assoc.
Qed.

(** X13. On a dictionary of templates with their lists of dropped
    features, the renderer returns one card for each template in the
    order of the dictionary; a template whose two lists are empty still
    has its card, with the name alone; the empty dictionary gives the
    message instead. *)
Theorem templates_one_card_each
        (templates : list (string * (list string * list string))) :
  generate_templates_section (JDict (map template_json templates))
  = Ok match templates with
       | [] => "<p>No template details available.</p>"
       | _ => lit "<div class=`templates-grid`>" ++ String.concat "" (map template_card templates) ++ "</div>"
       end
  /\ forall name,
       template_card (name, ([], []))
       = lit "
        <div class=`template-card`>
            <h4 class=`template-name`>" ++ escape_str name ++ "</h4>
        " ++ "</div>".
Proof.
  split; [|reflexivity].
  unfold generate_templates_section.
  destruct templates as [|t rest]; [reflexivity|].
  change (py_truthy (JDict (map template_json (t :: rest)))) with true.
  cbn [negb py_items bind]. cbv zeta.
  rewrite template_cards_loop. cbn [bind]. now rewrite append_assoc.
Qed.

End SummaryAndTemplates.


(** ** The arguments of the command line *)




Lemma parse_arguments_invariant (n : nat) :
  forall (args : list string) (output_file xml_file o x : option string),
    List.length args <= n ->
    parse_arguments args output_file xml_file = (o, x) ->
    (o = output_file
     \/ exists f, o = Some f /\ In f args /\ String.prefix "--" f = false)
    /\ (x = xml_file
        \/ exists v before after,
             x = Some v /\ args = (before ++ "--xml" :: v :: after)%list).
Proof.
  induction n as [|n IH]; intros args output_file xml_file o x Hn H.
  - destruct args; [|cbn in Hn; lia].
    inversion H; subst. split; now left.
  - destruct args as [|arg rest].
    { inversion H; subst. split; now left. }
    cbn [parse_arguments] in H. cbn [List.length] in Hn.
    assert (Skip : forall out,
               (out = output_file
                \/ out = Some arg /\ String.prefix "--" arg = false) ->
               parse_arguments rest out xml_file = (o, x) ->
               (o = output_file
                \/ exists f, o = Some f /\ In f (arg :: rest)
                             /\ String.prefix "--" f = false)
               /\ (x = xml_file
                   \/ exists v before after,
                        x = Some v
                        /\ arg :: rest = (before ++ "--xml" :: v :: after)%list)).
    { intros out Hout E.
      destruct (IH rest out xml_file o x ltac:(lia) E) as [Ho Hx]. split.
      - destruct Ho as [->|(f & -> & Hin & Hp)].
        + destruct Hout as [->|[-> Hp]]; [now left|].
          right. exists arg. repeat split; auto. now left.
        + right. exists f. repeat split; auto. now right.
      - destruct Hx as [->|(v & before & after & -> & ->)]; [now left|].
        right. now exists v, (arg :: before), after. }
    destruct (String.eqb_spec arg "--xml") as [->|Hne].
    + destruct rest as [|value rest'].
      * apply (Skip output_file); [now left|].
        destruct output_file; exact H.
      * cbn [List.length] in Hn.
        destruct (IH rest' output_file (Some value) o x ltac:(lia) H) as [Ho Hx].
        split.
        -- destruct Ho as [->|(f & -> & Hin & Hp)]; [now left|].
           right. exists f. repeat split; auto. now right; right.
        -- right. destruct Hx as [->|(v & before & after & -> & ->)].
           ++ now exists value, [], rest'.
           ++ now exists v, ("--xml" :: value :: before), after.
    + destruct output_file as [f0|].
      * apply (Skip (Some f0)); [now left|]. destruct rest; exact H.
      * destruct (String.prefix "--" arg) eqn:P; cbn [negb] in H.
        -- apply (Skip None); [now left|]. destruct rest; exact H.
        -- apply (Skip (Some arg)); [now right|]. destruct rest; exact H.
Qed.

(** X15. What the reading of the arguments can return.  The input file
    is the first argument; the output file is the default name or one of
    the later arguments, and then it does not begin with two dashes; the
    configuration file, when there is one, is an argument that follows
    [--xml]. *)
Theorem main_arguments_sound
        (argv : list string) (input_file output_file : string)
        (xml_file : option string) :
  main_arguments argv = Some (input_file, output_file, xml_file) ->
  exists program args,
    argv = program :: input_file :: args
    /\ (output_file = rsplit_first "."%char input_file ++ "-report.html"
        \/ In output_file args /\ String.prefix "--" output_file = false)
    /\ (xml_file = None
        \/ exists v before after,
             xml_file = Some v /\ args = (before ++ "--xml" :: v :: after)%list).
Proof.
  unfold main_arguments.
  destruct argv as [|program [|input rest]]; try discriminate.
  destruct (parse_arguments rest None None) as [o x] eqn:E.
  intros H. inversion H as [[Hi Hout Hx']]. clear H.
  subst input_file xml_file output_file. exists program, rest.
  split; [reflexivity|].
  destruct (parse_arguments_invariant _ rest None None o x (le_n _) E) as [Ho Hx].
  split.
  - destruct Ho as [->|(f & -> & Hin & Hp)]; [now left|now right].
  - exact Hx.
Qed.

(** X16. The output file and the configuration file can be given in
    either order: an output name that does not begin with two dashes and
    a pair [--xml file] give the same three files both ways, whatever the
    name of the configuration file is. *)
Theorem main_arguments_either_order (program input output file : string) :
  String.prefix "--" output = false ->
  main_arguments [program; input; output; "--xml"; file]
  = Some (input, output, Some file)
  /\ main_arguments [program; input; "--xml"; file; output]
     = Some (input, output, Some file).
Proof.
  intros H.
  assert (Hne : String.eqb output "--xml" = false).
  { destruct (String.eqb_spec output "--xml") as [->|]; [discriminate H|reflexivity]. }
  unfold main_arguments. cbn [parse_arguments].
  rewrite Hne, H. cbn [negb String.eqb Ascii.eqb Bool.eqb]. split; reflexivity.
Qed.


(** ** A configuration tree in which nothing resolves *)

Section ReportWithoutEnrichment.

Context {RT : Runtime}.

Lemma flat_block_unresolved (root : element) (sections : list (json * json))
      (kind : section_kind) :
  In kind [kind_features; kind_flags; kind_blocking] ->
  Forall (fun xpath => extract_xml_from_xpath (Some root) xpath = Ok None)
         (section_paths (sections_get sections (sk_category kind))) ->
  kind_block sections (Some root) kind = kind_block sections None kind.
Proof.
  intros Hk H. unfold kind_block.
  destruct (flat_section_unresolved_sections root _ H) as (E1 & E2 & E3).
  destruct Hk as [<-|[<-|[<-|[]]]];
    cbn [sk_render sk_category kind_features kind_flags kind_blocking] in *;
    [rewrite E1|rewrite E2|rewrite E3]; reflexivity.
Qed.

(** X17. When no locator path of the flat sections that the report shows
    resolves in the configuration tree, the report is the one produced
    without a tree, exception or text. *)
Theorem report_unresolved (now : string) (data : json) (root : element) :
  (forall cat details,
      In cat flat_categories ->
      last_details cat (document_sections data) = Some details ->
      Forall (fun xpath => extract_xml_from_xpath (Some root) xpath = Ok None)
             (section_paths details)) ->
  generate_html_report now data (Some root) = generate_html_report now data None.
Proof.
  intros H. rewrite !report_equation.
  destruct (extract_sections data) as [sections|e] eqn:Es; cbn [bind];
    [|reflexivity].
  assert (P : forall cat, In cat flat_categories ->
                          Forall (fun xpath =>
                                    extract_xml_from_xpath (Some root) xpath = Ok None)
                                 (section_paths (sections_get sections cat))).
  { intros cat Hc. unfold sections_get.
    rewrite (extract_sections_last _ _ cat Es).
    destruct (last_details cat (document_sections data)) as [details|] eqn:L.
    - now apply (H cat).
    - constructor. }
  rewrite !(flat_block_unresolved root sections) by
      (try (simpl; tauto); apply P; simpl; tauto).
  reflexivity.
Qed.

End ReportWithoutEnrichment.

(** ** A locator path that resolves *)

Section ResolvedPath.

Context {RT : Runtime}.

Lemma extract_xml_some_is_text (root : element) (xpath : json) (text : string) :
  extract_xml_from_xpath (Some root) xpath = Ok (Some text) ->
  exists path, xpath = JStr path.
Proof.
  destruct xpath as [| | |path| |]; try (cbn; discriminate).
  intros _. now exists path.
Qed.

(** X18. When a locator path resolves to a text that is not empty, its
    list item is the item produced without a tree with one block put
    before its end.  The block holds the text re-indented, or the text as
    extracted when it cannot be parsed and re-indented, and holds it
    escaped: the configuration adds no markup character to the page. *)
Theorem resolved_path_shows_configuration
        (root : element) (html : string) (xpath : json) (text : string) :
  extract_xml_from_xpath (Some root) xpath = Ok (Some text) ->
  nonempty text = true ->
  exists plain shown,
    xpath_item None html xpath = Ok (plain ++ "</li>")
    /\ pretty_print_xml (Some text) = Some shown
    /\ (shown = text
        \/ (elem <- ET_fromstring text ;;
            elem' <- ET_indent elem ;;
            ET_tostring elem') = Ok shown)
    /\ xpath_item (Some root) html xpath
       = Ok (plain ++ (if nonempty shown then xml_block shown else "") ++ "</li>")
    /\ forall m, In m markup_chars ->
                 count_char m (xml_block shown) = count_char m (xml_block "").
Proof.
  intros H Hne.
  destruct (extract_xml_some_is_text _ _ _ H) as [path ->].
  unfold xpath_item. rewrite format_xpath_total. cbn [bind]. cbv zeta.
  rewrite H. cbn [bind opt_truthy]. rewrite Hne.
  unfold pretty_print_xml. rewrite Hne. cbn [negb].
  set (fx := "/" ++ join "/" (map format_part (split slash (strip slash path)))).
  set (pipeline := (elem <- ET_fromstring text ;;
                    elem' <- ET_indent elem ;;
                    ET_tostring elem')).
  assert (C : forall shown m, In m markup_chars ->
                count_char m (xml_block shown) = count_char m (xml_block "")).
  { intros shown m Hm. unfold xml_block.
    rewrite !count_char_app, !count_char_escape_str by exact Hm. reflexivity. }
  exists (html ++ lit "<li class=`xpath-item`>" ++ fx).
  destruct pipeline as [pretty|e] eqn:P.
  - exists pretty. repeat split; auto.
    destruct (nonempty pretty); cbn [bind]; [|reflexivity].
    unfold xml_block. now rewrite !append_assoc.
  - exists text. repeat split; auto.
    rewrite Hne. cbn [bind]. unfold xml_block. now rewrite !append_assoc.
Qed.

End ResolvedPath.

(** * Examples and counterexamples on sample inputs *)

(** ** The resolver *)

Example resolve_vsys :
  @extract_xml_from_xpath sample_runtime (Some sample_tree)
    (JStr (lit "/devices/entry[@name=`beta`]/vsys"))
  = Ok (Some "<vsys>v1</vsys>").
Proof. reflexivity. Qed.

Example resolve_no_match :
  @extract_xml_from_xpath sample_runtime (Some sample_tree)
    (JStr (lit "/devices/entry[@name=`gamma`]/vsys"))
  = Ok None.
Proof. reflexivity. Qed.

Example resolve_malformed :
  @extract_xml_from_xpath sample_runtime (Some sample_tree)
    (JStr (lit "/devices/entry[@name=beta]"))
  = Ok None
  /\ @extract_xml_from_xpath sample_runtime (Some sample_tree) (JInt 7) = Ok None.
Proof. split; reflexivity. Qed.

(** ** The record aggregator *)

Lemma collect_all_items_rows_witness :
  Forall2 section_rows sample_sections sample_rows
  /\ collect_all_items (JList sample_sections) = Ok (concat sample_rows).
Proof.
  assert (H : Forall2 section_rows sample_sections sample_rows).
  { constructor; [apply (rows_flat (features_section [record_r1]) [record_r1]);
                  reflexivity|].
    constructor; [apply rows_other; reflexivity|].
    constructor; [apply (rows_flat blocking_section [record_r2]); reflexivity|].
    constructor. }
  split; [exact H|].
  apply (proj2 (collect_all_items_rows sample_sections (concat sample_rows))).
  now exists sample_rows.
Defined.

(** ** The assembler *)

Lemma report_sections_in_canonical_order_witness :
  match @generate_html_report sample_runtime sample_now (JList sample_sections) None
  with
  | Ok out =>
      exists entries summary blocks,
        out = page_top sample_now entries ++ summary
                ++ String.concat "" blocks ++ page_end
        /\ (summary = "" \/ exists table, summary = summary_heading ++ table)
        /\ Forall2 (emitted sample_sections None)
                   (@canonical_sections sample_runtime) blocks
  | Raise _ => False
  end.
Proof.
  destruct (@generate_html_report sample_runtime sample_now (JList sample_sections)
                                  None) as [out|e] eqn:E.
  - exact (@report_sections_in_canonical_order sample_runtime _ _ _ _ E).
  - vm_compute in E. discriminate E.
Defined.

(** A category that is present with empty details still has its section. *)
Example empty_category_is_emitted :
  exists before after,
    @generate_html_report sample_runtime sample_now
      (JList [JDict (features_section [])]) None
    = Ok (before
            ++ lit "<h2 id=`unsupported-features`>Unsupported Features</h2>"
            ++ lit "<p class=`no-issues`>No unsupported features found.</p>"
            ++ after).
Proof.
  exists (page_top sample_now []), page_end.
  vm_compute. reflexivity.
Qed.

(** C5, counterexample.  The first section filed under Unsupported
    Features has a record, the second has none: the category has a record
    in the input, and the report has neither the entry nor the section of
    the summary. *)
Lemma summary_absent_despite_record :
  some_flat_record duplicate_sections = true
  /\ exists out,
       @generate_html_report sample_runtime sample_now (JList duplicate_sections) None
       = Ok out
       /\ contains (lit "<a href=`#summary`>") out = false
       /\ contains summary_heading out = false.
Proof.
  split; [reflexivity|].
  eexists. split; [vm_compute; reflexivity|].
  split; vm_compute; reflexivity.
Qed.

Lemma summary_iff_last_flat_details_witness :
  flat_records duplicate_sections = false
  /\ match @generate_html_report sample_runtime sample_now (JList duplicate_sections)
                                 None
     with
     | Ok out =>
         exists entries summary blocks,
           out = page_top sample_now entries ++ summary
                   ++ String.concat "" blocks ++ page_end
           /\ (In summary_entry entries <-> flat_records duplicate_sections = true)
           /\ (if flat_records duplicate_sections
               then exists table,
                      @generate_summary_table sample_runtime (JList duplicate_sections)
                      = Ok table
                      /\ summary = summary_heading ++ table
               else summary = "")
     | Raise _ => False
     end.
Proof.
  split; [reflexivity|].
  destruct (@generate_html_report sample_runtime sample_now (JList duplicate_sections)
                                  None) as [out|e] eqn:E.
  - exact (@summary_iff_last_flat_details sample_runtime _ _ _ _ E).
  - vm_compute in E. discriminate E.
Defined.

(** ** Sections filed under one category *)

Lemma duplicate_category_last_wins_witness :
  match @generate_html_report sample_runtime sample_now (JList repeated_sections) None
  with
  | Ok out =>
      (forall sections,
          extract_sections (JList repeated_sections) = Ok sections ->
          sections_get sections "Unsupported Features" = JList [JDict record_r2])
      /\ @collect_all_items (JList repeated_sections) = Ok (concat repeated_rows)
  | Raise _ => False
  end.
Proof.
  destruct (@generate_html_report sample_runtime sample_now (JList repeated_sections)
                                  None) as [out|e] eqn:E.
  - assert (R : Forall2 section_rows repeated_sections repeated_rows).
    { constructor; [apply (rows_flat (features_section [record_r1]) [record_r1]);
                    reflexivity|].
      constructor; [apply (rows_flat (features_section [record_r2]) [record_r2]);
                    reflexivity|].
      constructor. }
    destruct (@duplicate_category_last_wins
                sample_runtime [] [] []
                (features_section [record_r1]) (features_section [record_r2])
                "Unsupported Features" repeated_rows sample_now None out
                eq_refl eq_refl (Forall_nil _) R E) as (H1 & _ & H3).
    split; [exact H1|exact H3].
  - vm_compute in E. discriminate E.
Defined.

(** ** Sections of no known category *)

(** C2, counterexample.  The record of a section of an unknown category
    is not in the report, which is the report of the empty document. *)
Lemma unknown_section_not_rendered :
  unknown_section custom_section = true
  /\ exists out,
       @generate_html_report sample_runtime sample_now (JList [custom_section]) None
       = Ok out
       /\ contains "XYZZY" out = false
       /\ @generate_html_report sample_runtime sample_now (JList []) None = Ok out.
Proof.
  split; [reflexivity|].
  eexists. split; [vm_compute; reflexivity|].
  split; vm_compute; reflexivity.
Qed.

Lemma unknown_section_ignored_witness :
  unknown_section custom_section = true
  /\ @generate_html_report sample_runtime sample_now
       (JList ([JDict (features_section [record_r1])] ++ custom_section :: [])) None
     = @generate_html_report sample_runtime sample_now
         (JList ([JDict (features_section [record_r1])] ++ [])) None.
Proof.
  split; [reflexivity|].
  apply (@unknown_section_ignored sample_runtime sample_now
           [JDict (features_section [record_r1])] [] custom_section None).
  reflexivity.
Defined.

(** ** The empty flat sections *)

(** C3, counterexample.  On empty details the flags renderer does not
    give what the features renderer gives: it has a message of its own. *)
Lemma flags_message_is_its_own :
  @generate_unsupported_flags_section sample_runtime (JList []) None
  = Ok (lit "<p class=`no-issues`>No unsupported flags found.</p>")
  /\ @generate_unsupported_flags_section sample_runtime (JList []) None
     <> @generate_unsupported_features_section sample_runtime (JList []) None.
Proof.
  split; [reflexivity|].
  intros E. vm_compute in E. discriminate E.
Qed.

(** ** Escaping in the cards *)

Lemma locator_path_not_escaped_witness :
  In "<"%char markup_chars
  /\ bare_path "/config/<script>" = true
  /\ exists before after,
       @detail_card sample_runtime None "" (record_with_path "/config/<script>")
       = Ok (before ++ "/config/<script>" ++ after)
       /\ @detail_card sample_runtime None "" (record_with_path "")
          = Ok (before ++ "/" ++ after)
       /\ count_char "<" (before ++ "/config/<script>" ++ after)
          = count_char "<" (before ++ "/" ++ after) + 1.
Proof.
  split; [simpl; tauto|]. split; [reflexivity|].
  destruct (@locator_path_not_escaped
              sample_runtime "<"%char "/config/<script>"
              "<b>" "R1" "qos" "t" "g" "vsys1" 3 ["<i>"] None
              (or_introl eq_refl) eq_refl)
    as [(before & after & E1 & E2 & C) _].
  exists before, after. repeat split; auto.
Defined.

(** ** The scenarios of the specification *)

(** One record under Unsupported Features, no configuration tree: the
    table has its row, the card has no configuration block. *)
Example scenario_single_record :
  exists out,
    @generate_html_report sample_runtime sample_now
      (JList [JDict (features_section [record_r1])]) None = Ok out
    /\ contains (lit "<td class=`rule-id-cell`>R1</td>") out = true
    /\ contains (lit "<td class=`count-cell`>3</td>") out = true
    /\ contains (lit "<span class=`value count`>3</span>") out = true
    /\ contains (lit "<div class=`xml-content`>") out = false.
Proof.
  eexists. split; [vm_compute; reflexivity|].
  repeat split; vm_compute; reflexivity.
Qed.

(** A root group with two unsupported descendants and a clean child. *)
Example scenario_device_groups :
  @generate_device_groups_section sample_runtime sample_groups
  = Ok (lit "<div class=`device-groups-container`><div class=`device-group has-unsupported` style=`margin-left: 0px;`><div class=`group-header`><h4 class=`group-name`>root</h4><span class=`badge badge-error`>2 unsupported</span></div></div><div class=`device-group has-none` style=`margin-left: 20px;`><div class=`group-header`><h4 class=`group-name`>leaf</h4><span class=`badge badge-success`>All supported</span></div></div></div>").
Proof. vm_compute. reflexivity. Qed.

(** A path that resolves: the item holds the fragment when the tree is
    given, and only the formatted path when it is not. *)
Example scenario_enrichment :
  @xpath_item sample_runtime (Some sample_tree) ""
    (JStr (lit "/devices/entry[@name=`beta`]/vsys"))
  = Ok (lit "<li class=`xpath-item`>/devices/beta/vsys<div class=`xml-content`><div class=`xml-content-header`>Configuration XML:</div><pre class=`xml-code`>&lt;vsys&gt;v1&lt;/vsys&gt;</pre></div></li>")
  /\ @xpath_item sample_runtime None ""
       (JStr (lit "/devices/entry[@name=`beta`]/vsys"))
     = Ok (lit "<li class=`xpath-item`>/devices/beta/vsys</li>").
Proof. split; vm_compute; reflexivity. Qed.


(** ** Further examples *)

Lemma extract_xml_empty_path_witness :
  only_slashes "//" = true
  /\ @extract_xml_from_xpath sample_runtime (Some sample_tree) (JStr "//")
     = Ok (Some (plain_tostring sample_tree)).
Proof.
  split; [reflexivity|].
  apply (@extract_xml_empty_path sample_runtime sample_tree "//"). reflexivity.
Defined.

Lemma flat_section_unresolved_witness :
  Forall (fun xpath =>
            @extract_xml_from_xpath sample_runtime (Some sample_tree) xpath = Ok None)
         (section_paths (JList [record_gamma]))
  /\ @generate_unsupported_features_section sample_runtime (JList [record_gamma])
       (Some sample_tree)
     = @generate_unsupported_features_section sample_runtime (JList [record_gamma])
         None.
Proof.
  assert (H : Forall (fun xpath =>
                        @extract_xml_from_xpath sample_runtime (Some sample_tree) xpath
                        = Ok None)
                     (section_paths (JList [record_gamma]))).
  { repeat constructor. }
  split; [exact H|].
  apply (@flat_section_unresolved sample_runtime sample_tree (JList [record_gamma]) H).
Defined.

Lemma summary_in_report_has_rows_witness :
  flat_records sample_sections = true
  /\ match @generate_html_report sample_runtime sample_now (JList sample_sections)
                                 None
     with
     | Ok out =>
         exists rows table,
           collect_all_items (JList sample_sections) = Ok rows
           /\ rows <> []
           /\ @generate_summary_table sample_runtime (JList sample_sections) = Ok table
           /\ table <> lit "<p class=`no-issues`>No issues found in configuration.</p>"
     | Raise _ => False
     end.
Proof.
  split; [reflexivity|].
  destruct (@generate_html_report sample_runtime sample_now (JList sample_sections)
                                  None) as [out|e] eqn:E.
  - exact (@summary_in_report_has_rows sample_runtime _ _ _ _ E eq_refl).
  - vm_compute in E. discriminate E.
Defined.


Lemma flat_section_needs_texts_witness :
  match @generate_unsupported_features_section sample_runtime
          (JList [JDict record_r1; JDict record_r2]) None
  with
  | Ok out => Forall texts_ok [JDict record_r1; JDict record_r2]
  | Raise _ => False
  end
  /\ @generate_unsupported_features_section sample_runtime
       (JList [JDict [("rule-id", JInt 7)]]) None
     = Raise AttributeError.
Proof.
  split; [|reflexivity].
  destruct (@generate_unsupported_features_section sample_runtime
              (JList [JDict record_r1; JDict record_r2]) None) as [out|e] eqn:E.
  - exact (@flat_section_needs_texts sample_runtime _ _ _ E).
  - vm_compute in E. discriminate E.
Defined.

Lemma config_summary_total_and_escaped_witness :
  In "<"%char markup_chars
  /\ exists out blank,
       @generate_config_summary_section sample_runtime
         (JList (map JDict [[("description", JStr "<b>"); ("count", JInt 4)];
                            [("count", JNull)]])) = Ok out
       /\ @generate_config_summary_section sample_runtime
            (JList (map JDict (map (fun _ => []) [[("description", JStr "<b>");
                                                   ("count", JInt 4)];
                                                  [("count", JNull)]]))) = Ok blank
       /\ count_char "<" out = count_char "<" blank.
Proof.
  split; [simpl; tauto|].
  apply (@config_summary_total_and_escaped sample_runtime "<"%char).
  simpl; tauto.
Defined.


Lemma main_arguments_sound_witness :
  main_arguments ["parser"; "in.json"; "--xml"; "--xml"; "out.html"; "--xml"]
  = Some ("in.json", "out.html", Some "--xml")
  /\ exists program args,
       ["parser"; "in.json"; "--xml"; "--xml"; "out.html"; "--xml"]
       = program :: "in.json" :: args
       /\ ("out.html" = rsplit_first "."%char "in.json" ++ "-report.html"
           \/ In "out.html" args /\ String.prefix "--" "out.html" = false)
       /\ (Some "--xml" = None
           \/ exists v before after,
                Some "--xml" = Some v
                /\ args = (before ++ "--xml" :: v :: after)%list).
Proof.
  split; [reflexivity|].
  apply (main_arguments_sound
           ["parser"; "in.json"; "--xml"; "--xml"; "out.html"; "--xml"]
           "in.json" "out.html" (Some "--xml")).
  reflexivity.
Defined.

Lemma main_arguments_either_order_witness :
  String.prefix "--" "out.html" = false
  /\ main_arguments ["parser"; "in.json"; "out.html"; "--xml"; "--xml"]
     = Some ("in.json", "out.html", Some "--xml")
  /\ main_arguments ["parser"; "in.json"; "--xml"; "--xml"; "out.html"]
     = Some ("in.json", "out.html", Some "--xml").
Proof.
  split; [reflexivity|].
  apply (main_arguments_either_order "parser" "in.json" "out.html" "--xml").
  reflexivity.
Defined.

Lemma report_unresolved_witness :
  (forall cat details,
      In cat flat_categories ->
      last_details cat (document_sections gamma_document) = Some details ->
      Forall (fun xpath =>
                @extract_xml_from_xpath sample_runtime (Some sample_tree) xpath
                = Ok None)
             (section_paths details))
  /\ @generate_html_report sample_runtime sample_now gamma_document (Some sample_tree)
     = @generate_html_report sample_runtime sample_now gamma_document None.
Proof.
  assert (H : forall cat details,
             In cat flat_categories ->
             last_details cat (document_sections gamma_document) = Some details ->
             Forall (fun xpath =>
                       @extract_xml_from_xpath sample_runtime (Some sample_tree) xpath
                       = Ok None)
                    (section_paths details)).
  { intros cat details Hc L.
    destruct Hc as [<-|[<-|[<-|[]]]]; vm_compute in L;
      try discriminate L.
    injection L as <-. repeat constructor. }
  split; [exact H|].
  exact (@report_unresolved sample_runtime sample_now gamma_document sample_tree H).
Defined.

Lemma resolved_path_shows_configuration_witness :
  @extract_xml_from_xpath sample_runtime (Some sample_tree)
     (JStr (lit "/devices/entry[@name=`beta`]/vsys"))
  = Ok (Some "<vsys>v1</vsys>")
  /\ exists plain shown,
       @xpath_item sample_runtime None ""
          (JStr (lit "/devices/entry[@name=`beta`]/vsys"))
       = Ok (plain ++ "</li>")
       /\ @pretty_print_xml sample_runtime (Some "<vsys>v1</vsys>") = Some shown
       /\ @xpath_item sample_runtime (Some sample_tree) ""
            (JStr (lit "/devices/entry[@name=`beta`]/vsys"))
          = Ok (plain ++ (if nonempty shown then xml_block shown else "") ++ "</li>").
Proof.
  assert (H : @extract_xml_from_xpath sample_runtime (Some sample_tree)
                 (JStr (lit "/devices/entry[@name=`beta`]/vsys"))
              = Ok (Some "<vsys>v1</vsys>")) by reflexivity.
  split; [exact H|].
  destruct (@resolved_path_shows_configuration sample_runtime sample_tree ""
              _ _ H eq_refl) as (plain & shown & E1 & E2 & _ & E3 & _).
  exists plain, shown. repeat split; assumption.
Defined.
